(** * MRI safety report tools: a shallow embedding of [app.py] and [mri_tool.py]

    The repository holds two Streamlit scripts.  [app.py] ("variant 1")
    queries a FHIR server for a patient's devices, conditions, procedures and
    imaging reports, sends the findings to a generative model and extracts two
    labelled fields from the reply.  [mri_tool.py] ("variant 2") posts each
    identifier to a triage endpoint and flattens the JSON reply into a row.

    Python values are embedded as a JSON tree, Python exceptions as an error
    monad, and the network and the generative model as oracle functions that
    the embedded code receives as arguments. *)

From Stdlib Require Import Ascii String DecimalString.
From Stdlib Require Import ZArith NArith QArith Bool Lia List.
Import ListNotations.

Set Warnings "-register-all".

Local Open Scope list_scope.
Local Open Scope Z_scope.

(** ** Python strings

    A Python [str] is a sequence of Unicode code points; [len], slicing and
    [str.strip] count code points, so a string is modelled as a list of code
    point numbers. *)

Definition codepoint := N.
Definition pystr := list codepoint.

(** An ASCII literal of the source, as code points. *)
Definition lit (s : string) : pystr := map N_of_ascii (list_ascii_of_string s).
Arguments lit s%_string.

Definition NL : codepoint := 10%N.    (* '\n' *)
Definition SP : codepoint := 32%N.    (* ' '  *)

Fixpoint pystr_eqb (a b : pystr) : bool :=
  match a, b with
  | [], [] => true
  | x :: a', y :: b' => N.eqb x y && pystr_eqb a' b'
  | _, _ => false
  end.

(** [s.startswith(p)] *)
Fixpoint starts_with (p s : pystr) : bool :=
  match p, s with
  | [], _ => true
  | _ :: _, [] => false
  | a :: p', b :: s' => N.eqb a b && starts_with p' s'
  end.

(** [p in s] for two strings: [p] occurs as a contiguous run of [s]. *)
Fixpoint str_contains (p s : pystr) : bool :=
  starts_with p s ||
  match s with
  | [] => false
  | _ :: s' => str_contains p s'
  end.

(** [str.isspace] on one code point: the table of CPython's
    [_PyUnicode_IsWhitespace], which [str.strip] and the [\s] class of [re]
    both consult. *)
Definition isspace (c : codepoint) : bool :=
  ((9 <=? c) && (c <=? 13) || (28 <=? c) && (c <=? 32)
   || (c =? 133) || (c =? 160) || (c =? 5760)
   || (8192 <=? c) && (c <=? 8202)
   || (c =? 8232) || (c =? 8233) || (c =? 8239) || (c =? 8287)
   || (c =? 12288))%N.

Fixpoint drop_while (f : codepoint -> bool) (s : pystr) : pystr :=
  match s with
  | [] => []
  | c :: s' => if f c then drop_while f s' else s
  end.

Fixpoint take_while (f : codepoint -> bool) (s : pystr) : pystr :=
  match s with
  | [] => []
  | c :: s' => if f c then c :: take_while f s' else []
  end.

Definition lstrip (s : pystr) : pystr := drop_while isspace s.
Definition rstrip (s : pystr) : pystr := rev (drop_while isspace (rev s)).

(** [s.strip()] *)
Definition strip (s : pystr) : pystr := rstrip (lstrip s).

(** [s.replace(old, new)] for a non-empty [old]: occurrences are replaced
    from the left and do not overlap.  [skip] counts the code points of a
    matched occurrence that are still to be dropped.  Every call in the two
    scripts passes a non-empty [old]. *)
Fixpoint replace_from (old new : pystr) (skip : nat) (s : pystr) : pystr :=
  match s with
  | [] => []
  | c :: s' =>
      match skip with
      | S k => replace_from old new k s'
      | O =>
          if starts_with old s
          then new ++ replace_from old new (Nat.pred (length old)) s'
          else c :: replace_from old new O s'
      end
  end.

Definition replace (old new s : pystr) : pystr := replace_from old new O s.

(** [len(s)] *)
Definition len (s : pystr) : Z := Z.of_nat (length s).

(** [s[:n]] for a bound [n] that is not negative, as at every call in the two
    scripts (a negative bound would count from the end). *)
Definition slice_to (n : Z) (s : pystr) : pystr := firstn (Z.to_nat n) s.

(** [sep.join(parts)] for a list of strings. *)
Fixpoint join (sep : pystr) (parts : list pystr) : pystr :=
  match parts with
  | [] => []
  | [p] => p
  | p :: rest => p ++ sep ++ join sep rest
  end.

(** [c * n] for a one-character string [c]. *)
Definition repeat_char (c : codepoint) (n : nat) : pystr := repeat c n.

(** Decimal rendering of an [int], as [str] gives it. *)
Definition str_of_int (n : Z) : pystr := lit (NilZero.string_of_int (Z.to_int n)).

(** ** Exceptions and the error monad *)

Inductive exn :=
| KeyError
| IndexError
| TypeError
| AttributeError.

Inductive result (A : Type) :=
| Ok (a : A)
| Raise (e : exn).
Arguments Ok {A} a.
Arguments Raise {A} e.

Definition bind {A B} (m : result A) (k : A -> result B) : result B :=
  match m with
  | Ok a => k a
  | Raise e => Raise e
  end.

Notation "x <- m ;; k" := (bind m (fun x => k))
  (at level 61, m at next level, right associativity).
Notation "' p <- m ;; k" := (bind m (fun x => match x with p => k end))
  (at level 61, p pattern, m at next level, right associativity).

Definition returns {A} (m : result A) : bool :=
  match m with Ok _ => true | Raise _ => false end.

(** ** JSON values, as [response.json()] hands them to the scripts *)

Inductive json :=
| JNull
| JBool (b : bool)
| JInt (n : Z)
| JFloat (q : Q)
| JStr (s : pystr)
| JList (l : list json)
| JDict (d : list (pystr * json)).

Definition pydict := list (pystr * json).

Fixpoint lookup (k : pystr) (d : pydict) : option json :=
  match d with
  | [] => None
  | (k', v) :: d' => if pystr_eqb k k' then Some v else lookup k d'
  end.

(** [bool(v)] *)
Definition truthy (v : json) : bool :=
  match v with
  | JNull => false
  | JBool b => b
  | JInt n => negb (n =? 0)
  | JFloat q => negb (Qnum q =? 0)
  | JStr s => negb (Nat.eqb (length s) 0)
  | JList l => negb (Nat.eqb (length l) 0)
  | JDict d => negb (Nat.eqb (length d) 0)
  end.

(** [a or b] *)
Definition py_or (a b : json) : json := if truthy a then a else b.

(** [v.get(k, default)]: only a dict has the method. *)
Definition py_get (v : json) (k : pystr) (default : json) : result json :=
  match v with
  | JDict d => Ok (match lookup k d with Some x => x | None => default end)
  | _ => Raise AttributeError
  end.

(** [v[k]] for a string key [k]. *)
Definition py_item (v : json) (k : pystr) : result json :=
  match v with
  | JDict d => match lookup k d with Some x => Ok x | None => Raise KeyError end
  | _ => Raise TypeError
  end.

(** [v[0]].  A dict decoded from JSON has string keys only, so the integer
    key is never present. *)
Definition py_first (v : json) : result json :=
  match v with
  | JList (x :: _) => Ok x
  | JList [] => Raise IndexError
  | JStr (c :: _) => Ok (JStr [c])
  | JStr [] => Raise IndexError
  | JDict _ => Raise KeyError
  | _ => Raise TypeError
  end.

(** [v == s] for a string literal [s]. *)
Definition py_eq_str (v : json) (s : pystr) : bool :=
  match v with
  | JStr t => pystr_eqb t s
  | _ => false
  end.

(** [k in v] for a string [k]: key membership in a dict, element membership
    in a list, substring test on a string; other values are not containers. *)
Definition py_in (k : pystr) (v : json) : result bool :=
  match v with
  | JDict d => Ok (match lookup k d with Some _ => true | None => false end)
  | JList l => Ok (existsb (fun x => py_eq_str x k) l)
  | JStr s => Ok (str_contains k s)
  | _ => Raise TypeError
  end.

(** The elements a [for] loop (or [str.join]) draws from [v]: the items of a
    list, the keys of a dict, the characters of a string. *)
Definition py_iter (v : json) : result (list json) :=
  match v with
  | JList l => Ok l
  | JDict d => Ok (map (fun kv => JStr (fst kv)) d)
  | JStr s => Ok (map (fun c => JStr [c]) s)
  | _ => Raise TypeError
  end.

Fixpoint all_strings (l : list json) : result (list pystr) :=
  match l with
  | [] => Ok []
  | JStr s :: l' => rest <- all_strings l' ;; Ok (s :: rest)
  | _ :: _ => Raise TypeError
  end.

(** [sep.join(v)] for a decoded value [v]: every element must be a [str]. *)
Definition py_join (sep : pystr) (v : json) : result pystr :=
  items <- py_iter v ;;
  parts <- all_strings items ;;
  Ok (join sep parts).

(** [v.replace(old, new)]: only a [str] has the method. *)
Definition py_replace (v : json) (old new : pystr) : result pystr :=
  match v with
  | JStr s => Ok (replace old new s)
  | _ => Raise AttributeError
  end.

(** ** What the interpreter does with non-ASCII text and with containers

    [repr] of a float or of a container, and the Unicode case mappings behind
    [str.upper] and [str.lower], depend on tables of the interpreter.  The
    scripts are embedded over any such interpretation. *)

Record interp := {
  py_repr : json -> pystr;
  str_upper : pystr -> pystr;
  str_lower : pystr -> pystr
}.

(** ** The outside world *)

(** A [requests.Response]: [json_body] is [inl msg] when [.json()] raises an
    exception whose text is [msg]. *)
Record response := {
  status_code : Z;
  reason : pystr;
  url : pystr;
  json_body : pystr + json
}.

(** A call of [requests.get] or [requests.post] either raises (connection
    refused, timeout, ...) with text [msg], or hands back a response. *)
Inductive http_outcome :=
| Failed (msg : pystr)
| Responded (r : response).

Definition headers_t := list (pystr * pystr).

(** [model.generate_content(prompt)] followed by [resp.text]: the reply text,
    or an exception whose text is [msg]. *)
Inductive ai_outcome :=
| Text (t : pystr)
| AiRaises (msg : pystr).

(** One row of the report: a Python dict literal, keys in the order written. *)
Definition row := list (pystr * json).

Definition columns (r : row) : list pystr := map fst r.

(** [for x in items: s = body x s], leaving at the first exception. *)
Fixpoint for_each {S : Type} (body : json -> S -> result S) (items : list json) (s : S)
  : result S :=
  match items with
  | [] => Ok s
  | x :: rest => s' <- body x s ;; for_each body rest s'
  end.

(** * Variant 1: [app.py] *)

Module App.

Definition FHIR_BASE_URL : pystr :=
  lit "https://fhir.epic.com/interconnect-fhir-oauth/api/FHIR/R4".

(** [safe_get_json(url, headers)]: the bare [except] turns every failure of
    the request or of the decoding into an empty dict. *)
Definition safe_get_json (requests_get : pystr -> headers_t -> http_outcome)
  (url : pystr) (headers : headers_t) : json :=
  match requests_get url headers with
  | Responded r =>
      if status_code r =? 200
      then match json_body r with inr j => j | inl _ => JDict [] end
      else JDict []
  | Failed _ => JDict []
  end.

(** The markers of the two labelled fields in the reply of the model. *)
Definition STATUS_MARKER : pystr := lit "**MRI Safety Status:**".
Definition RISK_MARKER : pystr := lit "**Risk Level:**".

(** The text after the leftmost occurrence of [marker] in [s]. *)
Fixpoint after_marker (marker s : pystr) : option pystr :=
  if starts_with marker s then Some (skipn (length marker) s)
  else match s with
       | [] => None
       | _ :: s' => after_marker marker s'
       end.

(** [re.search] with the pattern of lines 194 and 196, returning group 1 of
    the match.  The pattern is the escaped literal marker, then a greedy run
    of the white-space class, then a group that holds a greedy run of the dot
    class.  Both runs also match the empty string, so the search succeeds at
    the leftmost occurrence of the marker and nowhere earlier; being greedy,
    the first run takes all the white space that follows and the group takes
    every character up to the next line feed, the one character the dot does
    not match. *)
Definition re_search_field (marker s : pystr) : option pystr :=
  match after_marker marker s with
  | Some rest =>
      Some (take_while (fun c => negb (c =? NL)%N) (drop_while isspace rest))
  | None => None
  end.

(** Lines 191-198: the field keeps its initial value ["Unknown"] unless the
    search matches; [re.search] on a [str] raises nothing. *)
Definition extract_field (marker ai_report : pystr) : pystr :=
  match re_search_field marker ai_report with
  | Some g => strip g
  | None => lit "Unknown"
  end.

(** [[f"- {d}" for d in xs]] joined by line feeds. *)
Definition bullet_lines (xs : list pystr) : pystr :=
  join [NL] (map (fun d => lit "- " ++ d) xs).

Definition nonempty {A} (l : list A) : bool := negb (Nat.eqb (length l) 0).

(** Lines 116-120 of [analyze_with_ai]: the history text before truncation. *)
Definition assemble_history (devs conds procs imgs : list pystr) : pystr :=
  let history_str :=
    lit "Patient's Clinical History (FHIR Data):" ++ [NL]
    ++ repeat_char 45%N 40 ++ [NL] in
  let history_str :=
    if nonempty devs
    then history_str ++ lit "DEVICES:" ++ [NL] ++ bullet_lines devs ++ [NL]
    else history_str in
  let history_str :=
    if nonempty conds
    then history_str ++ lit "CONDITIONS:" ++ [NL] ++ bullet_lines conds ++ [NL]
    else history_str in
  let history_str :=
    if nonempty procs
    then history_str ++ lit "SURGERIES:" ++ [NL] ++ bullet_lines procs ++ [NL]
    else history_str in
  if nonempty imgs
  then history_str ++ lit "IMAGING:" ++ [NL] ++ bullet_lines imgs ++ [NL]
  else history_str.

Definition TRUNCATED_SUFFIX : pystr := [NL] ++ lit "...[TRUNCATED]".

(** Lines 123-124. *)
Definition truncate_history (history_str : pystr) : pystr :=
  if 28000 <? len history_str
  then slice_to 28000 history_str ++ TRUNCATED_SUFFIX
  else history_str.

(** The fixed text of the prompt template around its two fields. *)
Definition PROMPT_HEAD : pystr :=
  [NL] ++ lit "    You are an MRI safety expert." ++ [NL] ++ lit "    Patient: ".

Definition PROMPT_MIDDLE : pystr := [NL] ++ lit "    ".

Definition PROMPT_TAIL : pystr :=
  [NL] ++ lit "    " ++ [NL]
  ++ lit "    Determine MRI Safety Status (Safe, Conditional, Unsafe) and Risk Level (Low, Mod, High)."
  ++ [NL] ++ lit "    Provide key findings and specific recommendations."
  ++ [NL] ++ lit "    " ++ [NL]
  ++ lit "    OUTPUT FORMAT:" ++ [NL]
  ++ lit "    **MRI Safety Status:** [Status]" ++ [NL]
  ++ lit "    **Risk Level:** [Level]" ++ [NL]
  ++ lit "    **Analysis:** [Full detailed analysis]" ++ [NL]
  ++ lit "    ".

(** What one pass of the main loop sees of the outside world. *)
Record env := {
  requests_get : pystr -> headers_t -> http_outcome;
  generate_content : pystr -> ai_outcome
}.

(** The bundle [get_patient_data] returns:
    [pid, name, list_devs, list_conds, list_procs, list_imgs]. *)
Definition bundle : Type :=
  json * json * list pystr * list pystr * list pystr * list pystr.

Definition NOT_FOUND : bundle := (JNull, JNull, [], [], [], []).

Section Scripts.

Context (py : interp).

(** [str(v)], which is also what an f-string field [{v}] renders. *)
Definition py_str (v : json) : pystr :=
  match v with
  | JStr s => s
  | JNull => lit "None"
  | JBool true => lit "True"
  | JBool false => lit "False"
  | JInt n => str_of_int n
  | _ => py_repr py v
  end.

(** Line 78: [def clean(t): return str(t).replace('\n', ' ').strip()[:300]] *)
Definition clean (t : json) : pystr :=
  slice_to 300 (strip (replace [NL] [SP] (py_str t))).

(** Lines 85-87, the body of the loop over device entries. *)
Definition device_step (e : json) (list_devs : list pystr) : result (list pystr) :=
  resource <- py_item e (lit "resource") ;;
  names <- py_get resource (lit "deviceName") (JList [JDict []]) ;;
  first <- py_first names ;;
  nm <- py_get first (lit "name") JNull ;;
  let d_name := py_or nm (JStr (lit "Unknown Device")) in
  Ok (list_devs ++ [clean d_name]).

(** Line 92, the test of the loop over condition entries:
    [e['resource'].get('clinicalStatus', {}).get('coding', [{}])[0].get('code')] *)
Definition clinical_status_code (e : json) : result json :=
  resource <- py_item e (lit "resource") ;;
  cs <- py_get resource (lit "clinicalStatus") (JDict []) ;;
  coding <- py_get cs (lit "coding") (JList [JDict []]) ;;
  first <- py_first coding ;;
  py_get first (lit "code") JNull.

(** Line 93: [e['resource'].get('code', {}).get('text')] *)
Definition code_text (e : json) : result json :=
  resource <- py_item e (lit "resource") ;;
  code <- py_get resource (lit "code") (JDict []) ;;
  py_get code (lit "text") JNull.

(** Lines 91-94. *)
Definition condition_step (e : json) (list_conds : list pystr) : result (list pystr) :=
  status <- clinical_status_code e ;;
  if py_eq_str status (lit "active")
  then
    text <- code_text e ;;
    let c_name := py_or text (JStr (lit "Unknown Condition")) in
    Ok (list_conds ++ [clean c_name])
  else Ok list_conds.

(** Lines 98-101. *)
Definition procedure_step (e : json) (list_procs : list pystr) : result (list pystr) :=
  text <- code_text e ;;
  let p_name := py_or text (JStr (lit "Unknown Procedure")) in
  resource <- py_item e (lit "resource") ;;
  period <- py_get resource (lit "performedPeriod") (JDict []) ;;
  start <- py_get period (lit "start") JNull ;;
  let p_date := py_or start (JStr []) in
  Ok (list_procs ++ [clean p_name ++ lit " (" ++ py_str p_date ++ lit ")"]).

(** Lines 105-109. *)
Definition imaging_step (e : json) (list_imgs : list pystr) : result (list pystr) :=
  resource <- py_item e (lit "resource") ;;
  category <- py_get resource (lit "category") (JList [JDict []]) ;;
  first <- py_first category ;;
  text <- py_get first (lit "text") JNull ;;
  let cat := str_lower py (py_str text) in
  if str_contains (lit "radiology") cat || str_contains (lit "imaging") cat
  then
    study_text <- code_text e ;;
    let study := py_or study_text (JStr (lit "Study")) in
    Ok (list_imgs ++ [clean study])
  else Ok list_imgs.

(** [for e in resp.get('entry', []): ...] over one search response. *)
Definition entries_loop (step : json -> list pystr -> result (list pystr))
  (resp : json) : result (list pystr) :=
  entry <- py_get resp (lit "entry") (JList []) ;;
  items <- py_iter entry ;;
  for_each step items [].

Definition make_headers (token : json) : headers_t :=
  [(lit "Authorization", lit "Bearer " ++ py_str token);
   (lit "Accept", lit "application/json")].

Definition patient_url (mrn : pystr) : pystr :=
  FHIR_BASE_URL ++ lit "/Patient?identifier=" ++ mrn.
Definition device_url (pid : json) : pystr :=
  FHIR_BASE_URL ++ lit "/Device?patient=" ++ py_str pid.
Definition condition_url (pid : json) : pystr :=
  FHIR_BASE_URL ++ lit "/Condition?patient=" ++ py_str pid.
Definition procedure_url (pid : json) : pystr :=
  FHIR_BASE_URL ++ lit "/Procedure?patient=" ++ py_str pid ++ lit "&status=completed".
Definition report_url (pid : json) : pystr :=
  FHIR_BASE_URL ++ lit "/DiagnosticReport?patient=" ++ py_str pid.

(** Lines 74-75: the two reads from the first entry of the Patient search. *)
Definition patient_id (pt_resp : json) : result json :=
  entry <- py_item pt_resp (lit "entry") ;;
  first <- py_first entry ;;
  resource <- py_item first (lit "resource") ;;
  py_item resource (lit "id").

Definition patient_name (pt_resp : json) : result json :=
  entry <- py_item pt_resp (lit "entry") ;;
  first <- py_first entry ;;
  resource <- py_item first (lit "resource") ;;
  names <- py_item resource (lit "name") ;;
  first_name <- py_first names ;;
  py_item first_name (lit "text").

(** Lines 70-75: the Patient search.  [None] stands for the early return of
    the not-found bundle. *)
Definition patient_lookup (get : pystr -> headers_t -> http_outcome)
  (mrn : pystr) (headers : headers_t) : result (option (json * json)) :=
  let pt_resp := safe_get_json get (patient_url mrn) headers in
  total <- py_get pt_resp (lit "total") JNull ;;
  if negb (truthy total) then Ok None
  else
    pid <- patient_id pt_resp ;;
    name <- patient_name pt_resp ;;
    Ok (Some (pid, name)).

(** Lines 84-87, 90-94, 97-101 and 104-109: one search and one loop for each
    of the four finding lists. *)
Definition devices_of (get : pystr -> headers_t -> http_outcome)
  (headers : headers_t) (pid : json) : result (list pystr) :=
  entries_loop device_step (safe_get_json get (device_url pid) headers).

Definition conditions_of (get : pystr -> headers_t -> http_outcome)
  (headers : headers_t) (pid : json) : result (list pystr) :=
  entries_loop condition_step (safe_get_json get (condition_url pid) headers).

Definition procedures_of (get : pystr -> headers_t -> http_outcome)
  (headers : headers_t) (pid : json) : result (list pystr) :=
  entries_loop procedure_step (safe_get_json get (procedure_url pid) headers).

Definition imaging_of (get : pystr -> headers_t -> http_outcome)
  (headers : headers_t) (pid : json) : result (list pystr) :=
  entries_loop imaging_step (safe_get_json get (report_url pid) headers).

(** [get_patient_data(mrn, token)] *)
Definition get_patient_data (get : pystr -> headers_t -> http_outcome)
  (mrn : pystr) (token : json) : result bundle :=
  let headers := make_headers token in
  found <- patient_lookup get mrn headers ;;
  match found with
  | None => Ok NOT_FOUND
  | Some (pid, name) =>
      list_devs <- devices_of get headers pid ;;
      list_conds <- conditions_of get headers pid ;;
      list_procs <- procedures_of get headers pid ;;
      list_imgs <- imaging_of get headers pid ;;
      Ok (pid, name, list_devs, list_conds, list_procs, list_imgs)
  end.

(** Lines 116-138: the prompt handed to the model. *)
Definition build_prompt (name : json) (devs conds procs imgs : list pystr) : pystr :=
  let history_str := truncate_history (assemble_history devs conds procs imgs) in
  PROMPT_HEAD ++ py_str name ++ PROMPT_MIDDLE ++ history_str ++ PROMPT_TAIL.

(** [analyze_with_ai(model, name, devs, conds, procs, imgs)] *)
Definition analyze_with_ai (model : pystr -> ai_outcome) (name : json)
  (devs conds procs imgs : list pystr) : pystr :=
  match model (build_prompt name devs conds procs imgs) with
  | Text t => t
  | AiRaises msg => lit "AI Error: " ++ msg
  end.

(** Lines 200-208: the row appended for a patient that was found. *)
Definition make_row (mrn : pystr) (name : json) (status_val risk_val ai_report : pystr)
  (devs conds : list pystr) : row :=
  [(lit "MRN", JStr mrn);
   (lit "Name", name);
   (lit "Safety Status", JStr status_val);
   (lit "Risk Level", JStr risk_val);
   (lit "Full Analysis", JStr ai_report);
   (lit "Devices", JStr (join (lit " | ") devs));
   (lit "Conditions", JStr (join (lit " | ") conds))].

(** Lines 178-208, one pass of the main loop: [None] when the pass leaves by
    [continue] and appends nothing, [Some r] when it appends the row [r]. *)
Definition analyze_patient (w : env) (token : json) (mrn : pystr) : result (option row) :=
  '(pid, name, devs, conds, procs, imgs) <- get_patient_data (requests_get w) mrn token ;;
  if negb (truthy pid) then Ok None
  else
    let ai_report := analyze_with_ai (generate_content w) name devs conds procs imgs in
    let status_val := extract_field STATUS_MARKER ai_report in
    let risk_val := extract_field RISK_MARKER ai_report in
    Ok (Some (make_row mrn name status_val risk_val ai_report devs conds)).

(** Lines 173-210: [for i, mrn in enumerate(mrn_list)].  [world i] is the
    outside world as pass number [i] meets it; an exception that leaves a
    pass ends the script run, and no report is shown. *)
Fixpoint main_loop (world : nat -> env) (token : json) (i : nat) (mrn_list : list pystr)
  (results : list row) : result (list row) :=
  match mrn_list with
  | [] => Ok results
  | mrn :: rest =>
      r <- analyze_patient (world i) token mrn ;;
      match r with
      | None => main_loop world token (S i) rest results
      | Some new_row => main_loop world token (S i) rest (results ++ [new_row])
      end
  end.

Definition run (world : nat -> env) (token : json) (mrn_list : list pystr)
  : result (list row) :=
  main_loop world token O mrn_list [].

End Scripts.

End App.

(** * Variant 2: [mri_tool.py] *)

Module MriTool.

Definition API_URL : pystr :=
  lit "https://us-central1-emory-radiology-asssistant.cloudfunctions.net/mri-safety-check".

Definition HEADERS : headers_t := [(lit "Content-Type", lit "application/json")].

(** The text of the [HTTPError] that [response.raise_for_status()] raises for
    a status from 400 to 599. *)
Definition http_error_msg (r : response) : pystr :=
  str_of_int (status_code r)
  ++ (if status_code r <? 500 then lit " Client Error: " else lit " Server Error: ")
  ++ reason r ++ lit " for url: " ++ url r.

(** Line 19: the dict built by the [except] branch of [fetch_patient_data]. *)
Definition error_response (msg mrn : pystr) : json :=
  JDict [(lit "error", JStr msg);
         (lit "patient_info", JDict [(lit "mrn", JStr mrn)])].

(** [fetch_patient_data(mrn)]: every exception of the request, of the status
    check and of the decoding is caught and becomes an error dict. *)
Definition fetch_patient_data (requests_post : pystr -> json -> headers_t -> http_outcome)
  (mrn : pystr) : json :=
  let payload := JDict [(lit "mrn", JStr (strip mrn))] in
  match requests_post API_URL payload HEADERS with
  | Failed msg => error_response msg mrn
  | Responded r =>
      if (400 <=? status_code r) && (status_code r <? 600)
      then error_response (http_error_msg r) mrn
      else match json_body r with
           | inr data => data
           | inl msg => error_response msg mrn
           end
  end.

(** The emoji prefixes that line 64-67 strip from the patient fields. *)
Definition HOSPITAL : pystr := [127973%N; SP].
Definition BUST : pystr := [128100%N; SP].
Definition CALENDAR : pystr := [128197%N; SP].
Definition TRANSGENDER : pystr := [9895%N; SP].
Definition BULLET : pystr := [8226%N; SP].

(** The columns of a row, in the order of the two dict literals. *)
Definition ERROR_COLUMNS : list pystr := [lit "MRN"; lit "Status"; lit "Summary"].

Definition REPORT_COLUMNS : list pystr :=
  [lit "MRN"; lit "Name"; lit "DOB"; lit "Gender"; lit "Safety Status";
   lit "Risk Level"; lit "Devices/Implants Found"; lit "Clinical Summary";
   lit "Key Concerns"; lit "Technologist Recommendations"; lit "Timestamp"].

Section Scripts.

Context (py : interp).

Definition py_str := App.py_str py.

(** [v[:50] + "..."] of line 52: a [str] is sliced and extended; no other
    decoded value supports both the slice and the concatenation. *)
Definition short_description (v : json) : result pystr :=
  match v with
  | JStr s => Ok (slice_to 50 s ++ lit "...")
  | _ => Raise TypeError
  end.

(** [v.upper()] *)
Definition py_upper (v : json) : result pystr :=
  match v with
  | JStr s => Ok (str_upper py s)
  | _ => Raise AttributeError
  end.

(** Lines 43-55, the body of the loop over [findings_list]. *)
Definition finding_step (item : json) (devices_found : list pystr)
  : result (list pystr) :=
  has_concern <- py_get item (lit "has_concern") JNull ;;
  if truthy has_concern
  then
    item_data <- py_get item (lit "item_data") (JDict []) ;;
    resource <- py_get item_data (lit "resource") (JDict []) ;;
    device_names <- py_get resource (lit "deviceName") (JList []) ;;
    name <-
      (if truthy device_names
       then
         first <- py_first device_names ;;
         n <- py_item first (lit "name") ;;
         Ok (py_str n)
       else
         description <- py_get item (lit "description") (JStr (lit "Unknown Device")) ;;
         short_description description) ;;
    model <- py_get resource (lit "modelNumber") (JStr (lit "N/A")) ;;
    level <- py_get item (lit "concern_level") (JStr []) ;;
    upper <- py_upper level ;;
    Ok (devices_found
          ++ [BULLET ++ name ++ lit " (Model: " ++ py_str model ++ lit ") - "
              ++ upper ++ lit " risk"])
  else Ok devices_found.

(** [patient.get(field, "").replace(prefix, "")] of lines 64-67. *)
Definition patient_field (patient : json) (field prefix : pystr) : result json :=
  v <- py_get patient field (JStr []) ;;
  s <- py_replace v prefix [] ;;
  Ok (JStr s).

(** [parse_data_to_row(data)] *)
Definition parse_data_to_row (data : json) : result row :=
  has_error <- py_in (lit "error") data ;;
  if has_error
  then
    patient_info <- py_get data (lit "patient_info") (JDict []) ;;
    mrn <- py_get patient_info (lit "mrn") (JStr (lit "Unknown")) ;;
    summary <- py_item data (lit "error") ;;
    Ok [(lit "MRN", mrn);
        (lit "Status", JStr (lit "API Error"));
        (lit "Summary", summary)]
  else
    assessment <- py_get data (lit "mri_safety_assessment") (JDict []) ;;
    patient <- py_get data (lit "patient_info") (JDict []) ;;
    details <- py_get data (lit "analysis_details") (JDict []) ;;
    findings_list <- py_get details (lit "individual_findings") (JList []) ;;
    items <- py_iter findings_list ;;
    devices_found <- for_each finding_step items [] ;;
    concerns <- py_get assessment (lit "concerns") (JList []) ;;
    concerns_str <- py_join [NL] concerns ;;
    recommendations <- py_get assessment (lit "recommendations") (JList []) ;;
    recs_str <- py_join [NL] recommendations ;;
    let devices_str := join [NL] devices_found in
    mrn <- patient_field patient (lit "mrn") HOSPITAL ;;
    name <- patient_field patient (lit "name") BUST ;;
    dob <- patient_field patient (lit "dob") CALENDAR ;;
    gender <- patient_field patient (lit "gender") TRANSGENDER ;;
    status <- py_get assessment (lit "status") (JStr []) ;;
    risk <- py_get assessment (lit "risk") (JStr []) ;;
    summary <- py_get assessment (lit "summary") (JStr []) ;;
    timestamp <- py_get data (lit "timestamp") (JStr []) ;;
    Ok [(lit "MRN", mrn);
        (lit "Name", name);
        (lit "DOB", dob);
        (lit "Gender", gender);
        (lit "Safety Status", status);
        (lit "Risk Level", risk);
        (lit "Devices/Implants Found", JStr devices_str);
        (lit "Clinical Summary", summary);
        (lit "Key Concerns", JStr concerns_str);
        (lit "Technologist Recommendations", JStr recs_str);
        (lit "Timestamp", timestamp)].

(** Lines 95-102: [for i, mrn in enumerate(mrn_list)].  [world i] is the
    endpoint as pass number [i] meets it; an exception that leaves
    [parse_data_to_row] ends the script run, and no report is shown. *)
Fixpoint main_loop (world : nat -> pystr -> json -> headers_t -> http_outcome)
  (i : nat) (mrn_list : list pystr) (results : list row) : result (list row) :=
  match mrn_list with
  | [] => Ok results
  | mrn :: rest =>
      let data := fetch_patient_data (world i) mrn in
      flat_row <- parse_data_to_row data ;;
      main_loop world (S i) rest (results ++ [flat_row])
  end.

Definition run (world : nat -> pystr -> json -> headers_t -> http_outcome)
  (mrn_list : list pystr) : result (list row) :=
  main_loop world O mrn_list [].

End Scripts.

End MriTool.


(** * Notions used in the statements *)

(** A finding text within the bound: at most 300 characters, no line feed. *)
Definition tidy (s : pystr) : Prop := len s <= 300 /\ ~ In NL s.

(** Line 100, the date of a procedure entry as the server gave it:
    [e['resource'].get('performedPeriod', {}).get('start')] *)
Definition performed_start (e : json) : result json :=
  resource <- py_item e (lit "resource") ;;
  period <- py_get resource (lit "performedPeriod") (JDict []) ;;
  py_get period (lit "start") JNull.

(** The entries a loop of [get_patient_data] draws from a search response:
    what iterating over its [entry] field yields, and nothing when there is
    no such iteration. *)
Definition search_entries (resp : json) : list json :=
  match (entry <- py_get resp (lit "entry") (JList []) ;; py_iter entry) with
  | Ok items => items
  | Raise _ => []
  end.

(** [m] occurs in [s] as a contiguous run of characters. *)
Definition occurs (m s : pystr) : Prop := exists pre post, s = pre ++ m ++ post.

(** A request that raised, or that was answered with a status other than 200. *)
Definition failed (o : http_outcome) : bool :=
  match o with
  | Failed _ => true
  | Responded r => negb (status_code r =? 200)
  end.

(** [enumerate(l)], counting from [start]. *)
Definition enumerate {A} (start : nat) (l : list A) : list (nat * A) :=
  combine (seq start (length l)) l.

(** Whether the test of line 92 holds for a condition entry, and the name
    line 93 gives it. *)
Definition is_active (e : json) : bool :=
  match App.clinical_status_code e with
  | Ok code => py_eq_str code (lit "active")
  | Raise _ => false
  end.

Definition condition_name (py : interp) (e : json) : pystr :=
  match App.code_text e with
  | Ok text => App.clean py (py_or text (JStr (lit "Unknown Condition")))
  | Raise _ => []
  end.

(** A condition entry on which lines 92-93 raise nothing: it has a resource
    whose clinical status can be read and, when the status is active, whose
    code text can be read. *)
Definition readable_condition (e : json) : bool :=
  match App.clinical_status_code e with
  | Ok code =>
      if py_eq_str code (lit "active") then returns (App.code_text e) else true
  | Raise _ => false
  end.

(** A field that is absent or holds a JSON object. *)
Definition optional_object (k : pystr) (d : pydict) : bool :=
  match lookup k d with
  | None => true
  | Some (JDict _) => true
  | Some _ => false
  end.

(** An entry of a Condition search as FHIR types it: the entry holds a
    resource object; its [clinicalStatus] and its [code], when present, are
    objects (CodeableConcept); the [coding] of the clinical status, when
    present, is a list that starts with an object (FHIR has no empty
    lists). *)
Definition condition_entry_shape (e : json) : bool :=
  match py_item e (lit "resource") with
  | Ok (JDict resource) =>
      match lookup (lit "clinicalStatus") resource with
      | None => true
      | Some (JDict cs) =>
          match lookup (lit "coding") cs with
          | None => true
          | Some (JList (JDict _ :: _)) => true
          | Some _ => false
          end
      | Some _ => false
      end
      && optional_object (lit "code") resource
  | _ => false
  end.

(** The [patient_info] of a response dict is absent or is itself a dict: the
    two cases in which line 27 can read the record number. *)
Definition patient_info_usable (d : pydict) : bool :=
  optional_object (lit "patient_info") d.

(** The record number line 27 reports. *)
Definition reported_mrn (d : pydict) : json :=
  match lookup (lit "patient_info") d with
  | Some (JDict p) =>
      match lookup (lit "mrn") p with
      | Some m => m
      | None => JStr (lit "Unknown")
      end
  | _ => JStr (lit "Unknown")
  end.

(** The columns of a row of variant 1, in the order of lines 200-208. *)
Definition APP_COLUMNS : list pystr :=
  [lit "MRN"; lit "Name"; lit "Safety Status"; lit "Risk Level";
   lit "Full Analysis"; lit "Devices"; lit "Conditions"].

(** Whether the pass of variant 1 for [mrn] goes on after line 183: the
    Patient lookup gave an identifier that is not empty. *)
Definition patient_found (py : interp) (w : App.env) (token : json) (mrn : pystr) : bool :=
  match App.get_patient_data py (App.requests_get w) mrn token with
  | Ok (pid, _, _, _, _, _) => truthy pid
  | Raise _ => false
  end.

(** * The rest of the two scripts *)

Definition COMMA : codepoint := 44%N.

(** [s.split(sep)] for a one-character separator: the pieces between the
    separators, empty pieces included; the empty string gives one empty
    piece. *)
Fixpoint split_on (sep : codepoint) (s : pystr) : list pystr :=
  match s with
  | [] => [[]]
  | c :: s' =>
      if (c =? sep)%N then [] :: split_on sep s'
      else match split_on sep s' with
           | piece :: pieces => (c :: piece) :: pieces
           | [] => [[c]]
           end
  end.

(** Line 172 of [app.py] and line 90 of [mri_tool.py], the same list
    comprehension: the pieces of the input between commas, stripped, without
    those that are empty once stripped. *)
Definition mrn_list_of (mrn_input : pystr) : list pystr :=
  filter (fun x => negb (Nat.eqb (length x) 0))
         (map strip (split_on COMMA mrn_input)).

(** A text that neither starts nor ends with a white-space character. *)
Definition starts_clean (s : pystr) : bool :=
  match s with
  | [] => true
  | c :: _ => negb (isspace c)
  end.

Definition trimmed (s : pystr) : bool := starts_clean s && starts_clean (rev s).

(** An identifier as the parsed list holds them: not empty, trimmed, and
    without a comma. *)
Definition identifier (s : pystr) : Prop :=
  s <> [] /\ trimmed s = true /\ ~ In COMMA s.

(** Whether line 43 takes a finding: its [has_concern] is present and
    truthy. *)
Definition flagged (item : json) : bool :=
  match py_get item (lit "has_concern") JNull with
  | Ok v => truthy v
  | Raise _ => false
  end.

(** The resource object of a search entry, when the entry holds one. *)
Definition resource_of (e : json) : option pydict :=
  match py_item e (lit "resource") with
  | Ok (JDict resource) => Some resource
  | _ => None
  end.

(** The field [inner] of the object held under [outer], and the field
    [inner] of the first object of the list held under [outer]; null when
    [outer] or [inner] is absent. *)
Definition nested_field (outer inner : pystr) (resource : pydict) : json :=
  match lookup outer resource with
  | Some (JDict o) => match lookup inner o with Some v => v | None => JNull end
  | _ => JNull
  end.

Definition first_field (outer inner : pystr) (resource : pydict) : json :=
  match lookup outer resource with
  | Some (JList (JDict o :: _)) => match lookup inner o with Some v => v | None => JNull end
  | _ => JNull
  end.

(** A field that is absent or holds a list that starts with a JSON object. *)
Definition optional_objects (k : pystr) (d : pydict) : bool :=
  match lookup k d with
  | None => true
  | Some (JList (JDict _ :: _)) => true
  | Some _ => false
  end.

(** Entries of the Device, Procedure and DiagnosticReport searches as FHIR
    types them, and the text each contributes to its list. *)
Definition device_entry_shape (e : json) : bool :=
  match resource_of e with
  | Some resource => optional_objects (lit "deviceName") resource
  | None => false
  end.

Definition device_label (py : interp) (e : json) : pystr :=
  match resource_of e with
  | Some resource =>
      App.clean py (py_or (first_field (lit "deviceName") (lit "name") resource)
                          (JStr (lit "Unknown Device")))
  | None => []
  end.

Definition procedure_entry_shape (e : json) : bool :=
  match resource_of e with
  | Some resource =>
      optional_object (lit "code") resource
      && optional_object (lit "performedPeriod") resource
  | None => false
  end.

Definition procedure_label (py : interp) (e : json) : pystr :=
  match resource_of e with
  | Some resource =>
      App.clean py (py_or (nested_field (lit "code") (lit "text") resource)
                          (JStr (lit "Unknown Procedure")))
      ++ lit " ("
      ++ App.py_str py (py_or (nested_field (lit "performedPeriod") (lit "start") resource)
                              (JStr []))
      ++ lit ")"
  | None => []
  end.

Definition report_entry_shape (e : json) : bool :=
  match resource_of e with
  | Some resource =>
      optional_objects (lit "category") resource && optional_object (lit "code") resource
  | None => false
  end.

Definition is_imaging (py : interp) (e : json) : bool :=
  match resource_of e with
  | Some resource =>
      let cat := str_lower py (App.py_str py (first_field (lit "category") (lit "text")
                                               resource)) in
      str_contains (lit "radiology") cat || str_contains (lit "imaging") cat
  | None => false
  end.

Definition study_label (py : interp) (e : json) : pystr :=
  match resource_of e with
  | Some resource =>
      App.clean py (py_or (nested_field (lit "code") (lit "text") resource)
                          (JStr (lit "Study")))
  | None => []
  end.

(** The field [inner] is missing from the response [d]: the object [outer]
    that would hold it is absent, or is a dict without the key [inner]. *)
Definition absent_in (outer inner : pystr) (d : pydict) : Prop :=
  lookup outer d = None
  \/ exists o, lookup outer d = Some (JDict o) /\ lookup inner o = None.

(** The fields of patient_info and of mri_safety_assessment that
    [parse_data_to_row] reads, each with the column it fills. *)
Definition PATIENT_CELLS : list (pystr * pystr) :=
  [(lit "mrn", lit "MRN"); (lit "name", lit "Name");
   (lit "dob", lit "DOB"); (lit "gender", lit "Gender")].

Definition ASSESSMENT_CELLS : list (pystr * pystr) :=
  [(lit "status", lit "Safety Status"); (lit "risk", lit "Risk Level");
   (lit "summary", lit "Clinical Summary"); (lit "concerns", lit "Key Concerns");
   (lit "recommendations", lit "Technologist Recommendations")].

(** * Sample servers and runs *)

Module Sample.

Local Open Scope string_scope.

Definition ascii_upper (s : pystr) : pystr :=
  map (fun c => if ((97 <=? c) && (c <=? 122))%N then (c - 32)%N else c) s.

Definition ascii_lower (s : pystr) : pystr :=
  map (fun c => if ((65 <=? c) && (c <=? 90))%N then (c + 32)%N else c) s.

(** An interpretation that is exact on ASCII text.  The sample runs render
    no float and no container, so the placeholder of [py_repr] is never
    consulted by them. *)
Definition ascii : interp :=
  {| py_repr := fun _ => lit "<object>";
     str_upper := ascii_upper;
     str_lower := ascii_lower |}.

Definition ok_json (j : json) : http_outcome :=
  Responded {| status_code := 200; reason := lit "OK"; url := []; json_body := inr j |}.

Definition status_only (code : Z) (why : pystr) : http_outcome :=
  Responded {| status_code := code; reason := why; url := MriTool.API_URL;
               json_body := inl (lit "Expecting value: line 1 column 1 (char 0)") |}.

Definition obj (d : list (string * json)) : json :=
  JDict (map (fun kv => (lit (fst kv), snd kv)) d).

Definition s (t : string) : json := JStr (lit t).

(** A FHIR server that answers each of the five searches of [app.py] with a
    fixed outcome, whatever the identifier. *)
Definition fhir_server (patient device condition procedure report : http_outcome)
  : pystr -> headers_t -> http_outcome :=
  fun url _ =>
    if starts_with (App.FHIR_BASE_URL ++ lit "/Patient?")%list url then patient
    else if starts_with (App.FHIR_BASE_URL ++ lit "/Device?")%list url then device
    else if starts_with (App.FHIR_BASE_URL ++ lit "/Condition?")%list url then condition
    else if starts_with (App.FHIR_BASE_URL ++ lit "/Procedure?")%list url then procedure
    else if starts_with (App.FHIR_BASE_URL ++ lit "/DiagnosticReport?")%list url then report
    else Failed (lit "no route").

Definition bundle_of (entries : list json) : json :=
  obj [("total", JInt (Z.of_nat (length entries))); ("entry", JList entries)].

Definition entry_of (resource : json) : json := obj [("resource", resource)].

Definition jane : json :=
  bundle_of [entry_of (obj [("id", s "eq081-VQEgP8drUUqCWzHfw3");
                            ("name", JList [obj [("text", s "Jane Doe")]])])].

Definition pacemaker : json :=
  entry_of (obj [("deviceName", JList [obj [("name", s "Pacemaker")]])]).

Definition condition_entry (status text : string) : json :=
  entry_of (obj [("clinicalStatus", obj [("coding", JList [obj [("code", s status)]])]);
                 ("code", obj [("text", s text)])]).

Definition procedure_entry (text : pystr) (start : string) : json :=
  entry_of (obj [("code", obj [("text", JStr text)]);
                 ("performedPeriod", obj [("start", s start)])]).

Definition report_entry (category text : string) : json :=
  entry_of (obj [("category", JList [obj [("text", s category)]]);
                 ("code", obj [("text", s text)])]).

Definition token : json := s "eyJhbGciOi".
Definition mrn1 : pystr := lit "203715".
Definition mrn2 : pystr := lit "203716".

(** A patient with one finding of every kind. *)
Definition clinic : pystr -> headers_t -> http_outcome :=
  fhir_server (ok_json jane)
    (ok_json (bundle_of [pacemaker]))
    (ok_json (bundle_of [condition_entry "active" "Atrial fibrillation";
                         condition_entry "resolved" "Pneumonia"]))
    (ok_json (bundle_of [procedure_entry (lit "Appendectomy") "2019-03-02"]))
    (ok_json (bundle_of [report_entry "Radiology" "CT Head"])).

(** The same patient with a procedure whose name fills the whole bound. *)
Definition long_name : pystr := repeat 97%N 300.

Definition clinic_long_procedure : pystr -> headers_t -> http_outcome :=
  fhir_server (ok_json jane)
    (Failed (lit "timed out")) (Failed (lit "timed out"))
    (ok_json (bundle_of [procedure_entry long_name "2020-01-01"]))
    (Failed (lit "timed out")).

(** A hundred devices with names of 300 characters: a history text of more
    than 28000 characters. *)
Definition many_devices : list pystr := repeat long_name 100.

Definition two_conditions : list json :=
  [condition_entry "active" "Atrial fibrillation";
   condition_entry "resolved" "Pneumonia";
   entry_of (obj [("clinicalStatus", obj [("coding", JList [obj [("code", s "active")]])])])].

(** The Patient search is answered; the four other searches fail, one by a
    transport error and three by a status other than 200. *)
Definition clinic_findings_down : pystr -> headers_t -> http_outcome :=
  fhir_server (ok_json jane)
    (Failed (lit "timed out"))
    (status_only 500 (lit "Internal Server Error"))
    (status_only 404 (lit "Not Found"))
    (status_only 403 (lit "Forbidden")).

(** The Patient search itself fails. *)
Definition clinic_down : pystr -> headers_t -> http_outcome :=
  fhir_server (status_only 503 (lit "Service Unavailable"))
    (ok_json (bundle_of [pacemaker])) (ok_json (bundle_of []))
    (ok_json (bundle_of [])) (ok_json (bundle_of [])).

Definition safe_reply : pystr :=
  (lit "**MRI Safety Status:** Conditional" ++ [NL]
   ++ lit "**Risk Level:** Mod" ++ [NL]
   ++ lit "**Analysis:** Pacemaker present.")%list.

Definition helpful_model : pystr -> ai_outcome := fun _ => Text safe_reply.

(** A model whose call raises, with an error text that quotes the output
    format of the prompt. *)
Definition quota_error : pystr :=
  lit "400 prompt rejected near: **Risk Level:** [Level]".

Definition failing_model : pystr -> ai_outcome := fun _ => AiRaises quota_error.

Definition plain_failing_model : pystr -> ai_outcome :=
  fun _ => AiRaises (lit "429 Resource has been exhausted").

Definition findings_down_world : App.env :=
  {| App.requests_get := clinic_findings_down; App.generate_content := helpful_model |}.

Definition down_world : App.env :=
  {| App.requests_get := clinic_down; App.generate_content := helpful_model |}.

Definition jane_id : json := s "eq081-VQEgP8drUUqCWzHfw3".
Definition jane_name : json := s "Jane Doe".

(** A Patient resource whose name has its parts but no display text, as
    FHIR allows. *)
Definition john : json :=
  bundle_of [entry_of (obj [("id", s "erXuFYUfucBZaryVksYEcMg3");
                            ("name", JList [obj [("family", s "Smith");
                                                 ("given", JList [s "John"])]])])].

Definition clinic_without_display_name : pystr -> headers_t -> http_outcome :=
  fhir_server (ok_json john)
    (ok_json (bundle_of [])) (ok_json (bundle_of []))
    (ok_json (bundle_of [])) (ok_json (bundle_of [])).

Definition nameless_world : App.env :=
  {| App.requests_get := clinic_without_display_name;
     App.generate_content := helpful_model |}.

Definition clinic_world : App.env :=
  {| App.requests_get := clinic; App.generate_content := helpful_model |}.

Definition quoting_failure_world : App.env :=
  {| App.requests_get := clinic; App.generate_content := failing_model |}.

Definition plain_failure_world : App.env :=
  {| App.requests_get := clinic; App.generate_content := plain_failing_model |}.

(** A batch of two passes: the first patient is found, the Patient search of
    the second fails. *)
Definition two_pass_world (i : nat) : App.env :=
  match i with
  | O => clinic_world
  | _ => down_world
  end.

(** A well-formed answer of the triage endpoint. *)
Definition triage_answer : json :=
  obj [("patient_info",
        obj [("mrn", JStr (MriTool.HOSPITAL ++ lit "203715")%list);
             ("name", JStr (MriTool.BUST ++ lit "Jane Doe")%list);
             ("dob", JStr (MriTool.CALENDAR ++ lit "1970-01-01")%list);
             ("gender", JStr (MriTool.TRANSGENDER ++ lit "female")%list)]);
       ("mri_safety_assessment",
        obj [("status", s "Conditional"); ("risk", s "Moderate");
             ("summary", s "Pacemaker on file.");
             ("concerns", JList [s "Pacemaker"; s "No implant card"]);
             ("recommendations", JList [s "Consult cardiology"])]);
       ("analysis_details",
        obj [("individual_findings",
              JList [obj [("has_concern", JBool true);
                          ("concern_level", s "high");
                          ("description", s "Cardiac pacemaker");
                          ("item_data",
                           obj [("resource",
                                 obj [("deviceName", JList [obj [("name", s "Pacemaker")]]);
                                      ("modelNumber", s "X1")])])];
                     obj [("has_concern", JBool false)]])]);
       ("timestamp", s "2024-05-01T10:00:00Z")].

(** An answer whose record number is a JSON number instead of a string. *)
Definition numeric_mrn_answer : json :=
  obj [("patient_info", obj [("mrn", JInt 203715); ("name", s "Jane Doe")]);
       ("mri_safety_assessment", obj [("status", s "Safe"); ("risk", s "Low")]);
       ("timestamp", s "2024-05-01T10:00:00Z")].

Definition endpoint (o : http_outcome) : pystr -> json -> headers_t -> http_outcome :=
  fun _ _ _ => o.

(** A batch of two posts: the first is answered, the second meets status 500. *)
Definition two_post_world (i : nat) : pystr -> json -> headers_t -> http_outcome :=
  match i with
  | O => endpoint (ok_json triage_answer)
  | _ => endpoint (status_only 500 (lit "Internal Server Error"))
  end.

(** Two completed procedures, the second without a performed period. *)
Definition two_procedures : list json :=
  [procedure_entry (lit "Appendectomy") "2019-03-02";
   entry_of (obj [("code", obj [("text", s "Hip replacement")])])].

(** Two devices, the second without a device name. *)
Definition two_devices : list json := [pacemaker; entry_of (obj [])].

(** Three reports: a radiology study, a laboratory panel, and a study
    without a category. *)
Definition three_reports : list json :=
  [report_entry "Radiology" "CT Head";
   report_entry "Laboratory" "Lipid panel";
   entry_of (obj [("code", obj [("text", s "XR Chest")])])].

(** The entries the sample clinic answers with. *)
Definition clinic_conditions : list json :=
  [condition_entry "active" "Atrial fibrillation"; condition_entry "resolved" "Pneumonia"].

Definition clinic_procedures : list json :=
  [procedure_entry (lit "Appendectomy") "2019-03-02"].

Definition clinic_reports : list json := [report_entry "Radiology" "CT Head"].

(** The same patient with a procedure whose performed date spans two
    lines. *)
Definition two_line_date : pystr := (lit "2020-01-01" ++ [NL] ++ lit "2020-01-03")%list.

Definition clinic_two_line_date : pystr -> headers_t -> http_outcome :=
  fhir_server (ok_json jane)
    (Failed (lit "timed out")) (Failed (lit "timed out"))
    (ok_json (bundle_of
       [entry_of (obj [("code", obj [("text", s "Appendectomy")]);
                       ("performedPeriod", obj [("start", JStr two_line_date)])])]))
    (Failed (lit "timed out")).

(** A response that holds a record number and nothing else, and one whose
    timestamp is null. *)
Definition bare_answer : json := obj [("patient_info", obj [("mrn", s "203715")])].

Definition null_timestamp_answer : json := obj [("timestamp", JNull)].

End Sample.

(** * Properties *)

(** ** Strings *)

Lemma pystr_eqb_eq (a b : pystr) : pystr_eqb a b = true <-> a = b.
Proof.
  revert b; induction a as [|x a IH]; intros [|y b]; simpl; split;
    try discriminate; try reflexivity.
  - intros H. apply andb_true_iff in H as [Hx Hab].
    apply N.eqb_eq in Hx. apply IH in Hab. now subst.
  - intros H. inversion H; subst. rewrite N.eqb_refl. simpl. now apply IH.
Qed.

Lemma pystr_eqb_refl (a : pystr) : pystr_eqb a a = true.
Proof. now apply pystr_eqb_eq. Qed.

Lemma starts_with_app (p s : pystr) : starts_with p (p ++ s) = true.
Proof. induction p as [|a p IH]; simpl; [reflexivity|]. now rewrite N.eqb_refl. Qed.

Lemma starts_with_split (p s : pystr) :
  starts_with p s = true -> s = p ++ skipn (length p) s.
Proof.
  revert s; induction p as [|a p IH]; intros [|b s]; simpl; try discriminate;
    try reflexivity.
  intros H. apply andb_true_iff in H as [Hab Hp]. apply N.eqb_eq in Hab.
  subst. f_equal. now apply IH.
Qed.

(** Replacing a one-character string by another is a character-wise map. *)
Lemma replace_char (c d : codepoint) (s : pystr) :
  replace [c] [d] s = map (fun x => if N.eqb c x then d else x) s.
Proof.
  unfold replace. induction s as [|x s IH]; simpl; [reflexivity|].
  rewrite andb_true_r. destruct (N.eqb c x); simpl; now rewrite IH.
Qed.

Lemma replace_newline_free (s : pystr) : ~ In NL (replace [NL] [SP] s).
Proof.
  rewrite replace_char. intros H. apply in_map_iff in H as (x & Hx & _).
  destruct (N.eqb NL x) eqn:E.
  - discriminate Hx.
  - apply N.eqb_neq in E. now subst.
Qed.

Lemma drop_while_incl (f : codepoint -> bool) (s : pystr) (c : codepoint) :
  In c (drop_while f s) -> In c s.
Proof.
  induction s as [|x s IH]; simpl; [tauto|].
  destruct (f x); simpl; tauto.
Qed.

Lemma drop_while_length (f : codepoint -> bool) (s : pystr) :
  (length (drop_while f s) <= length s)%nat.
Proof.
  induction s as [|x s IH]; simpl; [lia|]. destruct (f x); simpl; lia.
Qed.

Lemma take_while_incl (f : codepoint -> bool) (s : pystr) (c : codepoint) :
  In c (take_while f s) -> In c s.
Proof.
  induction s as [|x s IH]; simpl; [tauto|].
  destruct (f x); simpl; tauto.
Qed.

Lemma strip_incl (s : pystr) (c : codepoint) : In c (strip s) -> In c s.
Proof.
  unfold strip, rstrip, lstrip. intros H.
  apply in_rev in H. apply drop_while_incl in H. apply in_rev in H.
  now apply drop_while_incl in H.
Qed.

Lemma strip_length (s : pystr) : (length (strip s) <= length s)%nat.
Proof.
  unfold strip, rstrip, lstrip. rewrite length_rev.
  etransitivity; [apply drop_while_length|]. rewrite length_rev.
  apply drop_while_length.
Qed.

Lemma slice_to_incl (n : Z) (s : pystr) (c : codepoint) :
  In c (slice_to n s) -> In c s.
Proof.
  unfold slice_to. intros H.
  rewrite <- (firstn_skipn (Z.to_nat n) s). apply in_or_app. now left.
Qed.

Lemma slice_to_len (n : Z) (s : pystr) : 0 <= n -> len (slice_to n s) <= n.
Proof.
  intros Hn. unfold len, slice_to. rewrite length_firstn. lia.
Qed.

Lemma slice_to_len_exact (n : Z) (s : pystr) :
  0 <= n -> n <= len s -> len (slice_to n s) = n.
Proof.
  unfold len, slice_to. intros Hn Hs. rewrite length_firstn. lia.
Qed.

Lemma len_app (a b : pystr) : len (a ++ b) = len a + len b.
Proof. unfold len. rewrite length_app. lia. Qed.

(** ** The error monad and the loops *)

Lemma bind_ok {A B} (m : result A) (k : A -> result B) (b : B) :
  bind m k = Ok b -> exists a, m = Ok a /\ k a = Ok b.
Proof. destruct m as [a|e]; simpl; [eauto | discriminate]. Qed.

Lemma returns_ok {A} (m : result A) : returns m = true -> exists a, m = Ok a.
Proof. destruct m; simpl; [eauto | discriminate]. Qed.

(** A property of the accumulator that every pass keeps holds when the loop
    is left normally. *)
Lemma for_each_invariant {S : Type} (P : S -> Prop)
  (body : json -> S -> result S) (items : list json) :
  (forall x s s', P s -> body x s = Ok s' -> P s') ->
  forall s s', P s -> for_each body items s = Ok s' -> P s'.
Proof.
  intros Hbody. induction items as [|x items IH]; simpl; intros s s' Hs H.
  - now inversion H; subst.
  - apply bind_ok in H as (s1 & H1 & H2). eauto.
Qed.

Ltac bind_inv H :=
  repeat match type of H with
  | bind _ _ = Ok _ =>
      let x := fresh "x" in let Hx := fresh "Hx" in
      apply bind_ok in H as (x & Hx & H)
  end.

(** ** Cleaning of finding texts *)

Lemma clean_tidy (py : interp) (t : json) : tidy (App.clean py t).
Proof.
  unfold App.clean. split.
  - apply slice_to_len. lia.
  - intros H. apply slice_to_incl, strip_incl in H.
    now apply replace_newline_free in H.
Qed.

Lemma entries_loop_invariant (P : list pystr -> Prop)
  (step : json -> list pystr -> result (list pystr)) (resp : json) (l : list pystr) :
  (forall e acc acc', P acc -> step e acc = Ok acc' -> P acc') ->
  P [] ->
  App.entries_loop step resp = Ok l -> P l.
Proof.
  intros Hstep Hnil H. unfold App.entries_loop in H. bind_inv H.
  eapply for_each_invariant; eauto.
Qed.

Lemma Forall_snoc {A} (P : A -> Prop) (l : list A) (x : A) :
  Forall P l -> P x -> Forall P (l ++ [x]).
Proof. intros Hl Hx. apply Forall_app. split; [assumption | now constructor]. Qed.

Lemma device_step_tidy py e acc acc' :
  Forall tidy acc -> App.device_step py e acc = Ok acc' -> Forall tidy acc'.
Proof.
  intros Hacc H. unfold App.device_step in H. bind_inv H.
  inversion H; subst. apply Forall_snoc; [assumption | apply clean_tidy].
Qed.

Lemma condition_step_tidy py e acc acc' :
  Forall tidy acc -> App.condition_step py e acc = Ok acc' -> Forall tidy acc'.
Proof.
  intros Hacc H. unfold App.condition_step in H. bind_inv H.
  destruct (py_eq_str x (lit "active")).
  - bind_inv H. inversion H; subst. apply Forall_snoc; [assumption | apply clean_tidy].
  - now inversion H; subst.
Qed.

Lemma imaging_step_tidy py e acc acc' :
  Forall tidy acc -> App.imaging_step py e acc = Ok acc' -> Forall tidy acc'.
Proof.
  intros Hacc H. unfold App.imaging_step in H. bind_inv H.
  match type of H with (if ?c then _ else _) = _ => destruct c end.
  - bind_inv H. inversion H; subst. apply Forall_snoc; [assumption | apply clean_tidy].
  - now inversion H; subst.
Qed.

(** A property of the accumulator that every pass over an item of the list
    keeps holds when the loop is left normally. *)
Lemma for_each_invariant_in {S : Type} (P : S -> Prop)
  (body : json -> S -> result S) (items : list json) :
  (forall x s s', In x items -> P s -> body x s = Ok s' -> P s') ->
  forall s s', P s -> for_each body items s = Ok s' -> P s'.
Proof.
  induction items as [|x items IH]; simpl; intros Hbody s s' Hs H.
  - now inversion H; subst.
  - apply bind_ok in H as (s1 & H1 & H2).
    apply (IH (fun y t t' Hy => Hbody y t t' (or_intror Hy)) s1 s'); [|exact H2].
    exact (Hbody x s s1 (or_introl eq_refl) Hs H1).
Qed.

Lemma procedure_step_text py e acc acc' :
  App.procedure_step py e acc = Ok acc' ->
  exists text start,
    App.code_text e = Ok text /\ performed_start e = Ok start
    /\ acc' = acc ++ [App.clean py (py_or text (JStr (lit "Unknown Procedure")))
                      ++ lit " (" ++ App.py_str py (py_or start (JStr [])) ++ lit ")"].
Proof.
  intros H. unfold App.procedure_step in H.
  apply bind_ok in H as (text & Htext & H).
  apply bind_ok in H as (resource & Hres & H).
  apply bind_ok in H as (period & Hper & H).
  apply bind_ok in H as (start & Hstart & H).
  inversion H; subst. exists text, start. split; [exact Htext|]. split; [|reflexivity].
  unfold performed_start. rewrite Hres. cbn [bind]. rewrite Hper. cbn [bind]. exact Hstart.
Qed.

Lemma bracketed_text (cleaned date : pystr) :
  tidy cleaned ->
  len (cleaned ++ lit " (" ++ date ++ lit ")") = len cleaned + len date + 3
  /\ (In NL (cleaned ++ lit " (" ++ date ++ lit ")") -> In NL date).
Proof.
  intros [_ Hnl]. split.
  - rewrite !len_app. change (len (lit " (")) with 2. change (len (lit ")")) with 1. lia.
  - intros H. apply in_app_or in H as [H|H]; [contradiction|].
    apply in_app_or in H as [H|H].
    + vm_compute in H. repeat (destruct H as [H|H]; [discriminate H|]). destruct H.
    + apply in_app_or in H as [H|H]; [exact H|].
      vm_compute in H. repeat (destruct H as [H|H]; [discriminate H|]). destruct H.
Qed.

(** C3, as the code has it.  Every entry of the device, condition and
    imaging lists that [get_patient_data] returns is at most 300 characters
    long and holds no line feed.  Every entry of the procedure list comes
    from an entry of the Procedure search response: it is the text of the
    code of that resource (or Unknown Procedure) cleaned in the same way, at
    most 300 characters and without a line feed, followed by a space, an
    opening bracket, the start of the performed period of that resource as
    the server gave it (nothing when it has none), and a closing bracket.
    The date is neither cleaned nor cut: the entry is as long as its cleaned
    name and its date together plus three characters, and it holds a line
    feed only when the date does. *)
Theorem finding_entries_shape py get mrn token pid name devs conds procs imgs :
  App.get_patient_data py get mrn token = Ok (pid, name, devs, conds, procs, imgs) ->
  Forall tidy devs /\ Forall tidy conds /\ Forall tidy imgs
  /\ Forall
       (fun p =>
          exists e text start,
            In e (search_entries
                    (App.safe_get_json get (App.procedure_url py pid)
                       (App.make_headers py token)))
            /\ App.code_text e = Ok text
            /\ performed_start e = Ok start
            /\ let cleaned := App.clean py (py_or text (JStr (lit "Unknown Procedure"))) in
               let date := App.py_str py (py_or start (JStr [])) in
               p = cleaned ++ lit " (" ++ date ++ lit ")"
               /\ tidy cleaned
               /\ len p = len cleaned + len date + 3
               /\ (In NL p -> In NL date))
       procs.
Proof.
  intros H. unfold App.get_patient_data in H. bind_inv H.
  destruct x as [[pid' name']|].
  - bind_inv H. inversion H; subst.
    unfold App.devices_of, App.conditions_of, App.procedures_of, App.imaging_of in *.
    repeat split.
    + eapply entries_loop_invariant; [apply device_step_tidy | constructor | eassumption].
    + eapply entries_loop_invariant; [apply condition_step_tidy | constructor | eassumption].
    + eapply entries_loop_invariant; [apply imaging_step_tidy | constructor | eassumption].
    + match goal with
      | Hp : App.entries_loop (App.procedure_step py) ?resp = Ok procs |- _ =>
          unfold App.entries_loop in Hp;
          apply bind_ok in Hp as (entry & Hentry & Hp);
          apply bind_ok in Hp as (items & Hitems & Hp);
          assert (Hsearch : search_entries resp = items)
            by (unfold search_entries; rewrite Hentry; cbn [bind]; now rewrite Hitems);
          rewrite Hsearch;
          revert Hp; apply for_each_invariant_in; [|constructor]
      end.
      intros e acc acc' He Hacc Hstep.
      destruct (procedure_step_text py e acc acc' Hstep) as (text & start & Ht & Hs & ->).
      apply Forall_snoc; [exact Hacc|].
      exists e, text, start. split; [exact He|]. split; [exact Ht|]. split; [exact Hs|].
      cbv zeta. split; [reflexivity|]. split; [apply clean_tidy|].
      apply bracketed_text, clean_tidy.
  - inversion H; subst. repeat split; constructor.
Qed.

(** The bundle of the sample patient satisfies the shape. *)
Lemma finding_entries_shape_witness :
  Forall tidy [lit "Pacemaker"] /\ Forall tidy [lit "Atrial fibrillation"]
  /\ Forall tidy [lit "CT Head"]
  /\ Forall
       (fun p =>
          exists e text start,
            In e (search_entries
                    (App.safe_get_json Sample.clinic
                       (App.procedure_url Sample.ascii Sample.jane_id)
                       (App.make_headers Sample.ascii Sample.token)))
            /\ App.code_text e = Ok text
            /\ performed_start e = Ok start
            /\ let cleaned :=
                 App.clean Sample.ascii (py_or text (JStr (lit "Unknown Procedure"))) in
               let date := App.py_str Sample.ascii (py_or start (JStr [])) in
               p = cleaned ++ lit " (" ++ date ++ lit ")"
               /\ tidy cleaned
               /\ len p = len cleaned + len date + 3
               /\ (In NL p -> In NL date))
       [lit "Appendectomy (2019-03-02)"].
Proof.
  apply (finding_entries_shape Sample.ascii Sample.clinic Sample.mrn1 Sample.token
           Sample.jane_id Sample.jane_name).
  vm_compute. reflexivity.
Defined.

(** C3 fails for procedures, in both of its parts.  A completed procedure
    whose name is 300 characters long and whose performed date is 2020-01-01
    enters the procedure list as an entry of 313 characters.  A completed
    procedure whose performed date holds a line feed enters the list with
    that line feed. *)
Lemma procedure_entry_over_bound :
  (App.get_patient_data Sample.ascii Sample.clinic_long_procedure Sample.mrn1 Sample.token
   = Ok (Sample.s "eq081-VQEgP8drUUqCWzHfw3", Sample.s "Jane Doe", [], [],
         [Sample.long_name ++ lit " (2020-01-01)"], [])
   /\ len (Sample.long_name ++ lit " (2020-01-01)") = 313
   /\ ~ tidy (Sample.long_name ++ lit " (2020-01-01)"))
  /\ (App.get_patient_data Sample.ascii Sample.clinic_two_line_date Sample.mrn1 Sample.token
      = Ok (Sample.s "eq081-VQEgP8drUUqCWzHfw3", Sample.s "Jane Doe", [], [],
            [lit "Appendectomy (" ++ Sample.two_line_date ++ lit ")"], [])
      /\ In NL (lit "Appendectomy (" ++ Sample.two_line_date ++ lit ")")
      /\ ~ tidy (lit "Appendectomy (" ++ Sample.two_line_date ++ lit ")")).
Proof.
  split.
  - split; [vm_compute; reflexivity|]. split; [vm_compute; reflexivity|].
    intros [H _]. vm_compute in H. now apply H.
  - split; [vm_compute; reflexivity|].
    assert (Hin : In NL (lit "Appendectomy (" ++ Sample.two_line_date ++ lit ")")).
    { apply in_or_app. right. apply in_or_app. left.
      unfold Sample.two_line_date. apply in_or_app. right. now left. }
    split; [exact Hin|]. intros [_ H]. exact (H Hin).
Qed.

(** ** Extraction of the labelled fields *)

Lemma str_contains_head (m s : pystr) :
  starts_with m s = true -> str_contains m s = true.
Proof. intros H. destruct s; simpl; now rewrite H. Qed.

Lemma str_contains_occurs (m s : pystr) : str_contains m s = true <-> occurs m s.
Proof.
  split.
  - induction s as [|c s IH]; simpl; intros H.
    + rewrite orb_false_r in H. apply starts_with_split in H.
      exists [], (skipn (length m) []). exact H.
    + apply orb_true_iff in H as [H|H].
      * apply starts_with_split in H. exists [], (skipn (length m) (c :: s)). exact H.
      * destruct (IH H) as (pre & post & ->). exists (c :: pre), post. reflexivity.
  - intros (pre & post & ->). induction pre as [|c pre IH].
    + apply str_contains_head. exact (starts_with_app m post).
    + simpl. rewrite IH. apply orb_true_r.
Qed.

Lemma after_marker_occurs (m s rest : pystr) :
  App.after_marker m s = Some rest -> occurs m s.
Proof.
  induction s as [|c s IH]; simpl; intros H.
  - destruct (starts_with m []) eqn:E; [|discriminate].
    apply starts_with_split in E. exists [], (skipn (length m) []). exact E.
  - destruct (starts_with m (c :: s)) eqn:E.
    + apply starts_with_split in E. exists [], (skipn (length m) (c :: s)). exact E.
    + destruct (IH H) as (pre & post & ->). exists (c :: pre), post. reflexivity.
Qed.

Lemma extract_field_unknown (m s : pystr) :
  ~ occurs m s -> App.extract_field m s = lit "Unknown".
Proof.
  intros H. unfold App.extract_field, App.re_search_field.
  destruct (App.after_marker m s) as [rest|] eqn:E; [|reflexivity].
  exfalso. apply H. eapply after_marker_occurs, E.
Qed.

(** C7.  For every reply of the model that does not contain the marker of
    the risk level, the extracted risk field is the text Unknown, and for
    every reply that does not contain the marker of the safety status, the
    extracted status field is the text Unknown.  The extraction is a total
    function of the reply: it never raises. *)
Theorem missing_marker_gives_unknown (ai_report : pystr) :
  (~ occurs App.RISK_MARKER ai_report ->
     App.extract_field App.RISK_MARKER ai_report = lit "Unknown")
  /\ (~ occurs App.STATUS_MARKER ai_report ->
     App.extract_field App.STATUS_MARKER ai_report = lit "Unknown").
Proof. split; apply extract_field_unknown. Qed.

Lemma missing_marker_gives_unknown_witness :
  App.extract_field App.RISK_MARKER (lit "**MRI Safety Status:** Safe") = lit "Unknown"
  /\ App.extract_field App.STATUS_MARKER (lit "No contraindication found.") = lit "Unknown".
Proof.
  split.
  - apply (proj1 (missing_marker_gives_unknown (lit "**MRI Safety Status:** Safe"))).
    intros H. apply str_contains_occurs in H. vm_compute in H. discriminate H.
  - apply (proj2 (missing_marker_gives_unknown (lit "No contraindication found."))).
    intros H. apply str_contains_occurs in H. vm_compute in H. discriminate H.
Defined.

(** ** The prompt *)

(** C8.  The prompt handed to the model is the fixed template with the
    patient name and the history text in its two fields.  When the assembled
    history is longer than 28000 characters, the text in the field is its
    first 28000 characters followed by a line feed and the marker
    ...[TRUNCATED]; otherwise it is the assembled history unchanged. *)
Theorem prompt_history_truncation (py : interp) (model : pystr -> ai_outcome)
  (name : json) (devs conds procs imgs : list pystr) :
  let history_str := App.assemble_history devs conds procs imgs in
  exists embedded,
    App.build_prompt py name devs conds procs imgs
      = App.PROMPT_HEAD ++ App.py_str py name ++ App.PROMPT_MIDDLE
        ++ embedded ++ App.PROMPT_TAIL
    /\ App.analyze_with_ai py model name devs conds procs imgs
       = match model (App.PROMPT_HEAD ++ App.py_str py name ++ App.PROMPT_MIDDLE
                      ++ embedded ++ App.PROMPT_TAIL) with
         | Text t => t
         | AiRaises msg => lit "AI Error: " ++ msg
         end
    /\ (28000 < len history_str ->
          exists first rest,
            history_str = first ++ rest /\ len first = 28000
            /\ embedded = first ++ [NL] ++ lit "...[TRUNCATED]")
    /\ (len history_str <= 28000 -> embedded = history_str).
Proof.
  intros history_str.
  exists (App.truncate_history history_str).
  split; [reflexivity|]. split; [reflexivity|].
  unfold App.truncate_history. split.
  - intros Hlong. apply Z.ltb_lt in Hlong. rewrite Hlong.
    exists (slice_to 28000 history_str), (skipn (Z.to_nat 28000) history_str).
    split; [|split].
    + unfold slice_to. symmetry. apply firstn_skipn.
    + apply slice_to_len_exact; [lia|]. apply Z.ltb_lt in Hlong. lia.
    + reflexivity.
  - intros Hshort. destruct (28000 <? len history_str) eqn:E; [|reflexivity].
    apply Z.ltb_lt in E. lia.
Qed.

Lemma prompt_history_truncation_witness :
  exists embedded,
    App.build_prompt Sample.ascii (Sample.s "Jane Doe") Sample.many_devices [] [] []
      = App.PROMPT_HEAD ++ lit "Jane Doe" ++ App.PROMPT_MIDDLE
        ++ embedded ++ App.PROMPT_TAIL
    /\ exists first rest,
         App.assemble_history Sample.many_devices [] [] [] = first ++ rest
         /\ len first = 28000
         /\ embedded = first ++ [NL] ++ lit "...[TRUNCATED]".
Proof.
  destruct (prompt_history_truncation Sample.ascii (fun _ => Text [])
              (Sample.s "Jane Doe") Sample.many_devices [] [] [])
    as (embedded & Hprompt & _ & Hlong & _).
  exists embedded. split; [exact Hprompt|].
  apply Hlong. vm_compute. reflexivity.
Defined.

(** ** Conditions *)

Lemma condition_step_filter py e acc :
  readable_condition e = true ->
  App.condition_step py e acc
  = Ok (acc ++ map (condition_name py) (filter is_active [e])).
Proof.
  unfold readable_condition, App.condition_step. simpl filter.
  unfold is_active.
  destruct (App.clinical_status_code e) as [code|]; [|discriminate]. simpl bind.
  destruct (py_eq_str code (lit "active")).
  - simpl map. unfold condition_name.
    destruct (App.code_text e) as [text|]; [|discriminate]. reflexivity.
  - intros _. simpl. now rewrite app_nil_r.
Qed.

Lemma conditions_loop_filter py entries acc :
  forallb readable_condition entries = true ->
  for_each (App.condition_step py) entries acc
  = Ok (acc ++ map (condition_name py) (filter is_active entries)).
Proof.
  revert acc. induction entries as [|e entries IH]; simpl; intros acc H.
  - now rewrite app_nil_r.
  - apply andb_true_iff in H as [He Hrest].
    rewrite (condition_step_filter py e acc He). simpl bind.
    rewrite (IH _ Hrest). simpl.
    destruct (is_active e); simpl; [|now rewrite app_nil_r].
    now rewrite <- app_assoc.
Qed.

Lemma condition_entry_readable e :
  condition_entry_shape e = true -> readable_condition e = true.
Proof.
  unfold condition_entry_shape, readable_condition, App.clinical_status_code,
    App.code_text, optional_object.
  destruct (py_item e (lit "resource")) as [[| | | | | |resource]|]; try discriminate.
  cbn [bind py_get].
  destruct (lookup (lit "clinicalStatus") resource) as [[| | | | | |cs]|];
    try discriminate; cbn [bind py_get].
  - destruct (lookup (lit "coding") cs) as [[| | | | |[|[| | | | | |c] l]|]|];
      try discriminate; cbn [bind py_get py_first andb];
      destruct (lookup (lit "code") resource) as [[| | | | | |code]|];
      try discriminate; intros _;
      match goal with |- (if ?b then _ else _) = true => destruct b; reflexivity end.
  - cbn [py_first bind py_get lookup andb].
    destruct (lookup (lit "code") resource) as [[| | | | | |code]|];
      try discriminate; intros _;
      match goal with |- (if ?b then _ else _) = true => destruct b; reflexivity end.
Qed.

Lemma forallb_impl {A} (f g : A -> bool) (l : list A) :
  (forall x, f x = true -> g x = true) -> forallb f l = true -> forallb g l = true.
Proof.
  intros Hfg. induction l as [|x l IH]; simpl; [reflexivity|].
  intros H. apply andb_true_iff in H as [Hx Hl].
  now rewrite (Hfg x Hx), (IH Hl).
Qed.

(** C9.  Let a Condition search response hold the entries [entries], each
    of the shape FHIR gives a Condition entry.  The list of active
    conditions built from it holds, in order, one name for every entry whose
    clinical-status code (the code of the first coding) equals the text
    active, and nothing for an entry with any other code, resolved among
    them.  The name is the text of the code of the resource, or Unknown
    Condition when that text is absent or empty, cleaned as every finding
    text is. *)
Theorem active_conditions_only (py : interp) (resp : json) (entries : list json) :
  py_get resp (lit "entry") (JList []) = Ok (JList entries) ->
  forallb condition_entry_shape entries = true ->
  App.entries_loop (App.condition_step py) resp
  = Ok (map (condition_name py) (filter is_active entries)).
Proof.
  intros Hentry Hshape. unfold App.entries_loop. rewrite Hentry. simpl.
  apply (conditions_loop_filter py entries []).
  revert Hshape. apply forallb_impl. apply condition_entry_readable.
Qed.

Lemma active_conditions_only_witness :
  App.entries_loop (App.condition_step Sample.ascii)
    (Sample.bundle_of Sample.two_conditions)
  = Ok [lit "Atrial fibrillation"; lit "Unknown Condition"].
Proof.
  apply (active_conditions_only Sample.ascii
           (Sample.bundle_of Sample.two_conditions) Sample.two_conditions);
    vm_compute; reflexivity.
Defined.

(** ** Failing requests *)

Lemma safe_get_json_failed get url headers :
  failed (get url headers) = true -> App.safe_get_json get url headers = JDict [].
Proof.
  unfold failed, App.safe_get_json. destruct (get url headers) as [msg|r]; [reflexivity|].
  destruct (status_code r =? 200); [discriminate | reflexivity].
Qed.

Lemma entries_loop_empty step : App.entries_loop step (JDict []) = Ok [].
Proof. reflexivity. Qed.

Lemma patient_lookup_failed get mrn headers :
  failed (get (App.patient_url mrn) headers) = true ->
  App.patient_lookup get mrn headers = Ok None.
Proof.
  intros H. unfold App.patient_lookup. now rewrite (safe_get_json_failed _ _ _ H).
Qed.

(** C2, as the code has it.  A Device, Condition, Procedure or
    DiagnosticReport request that raises or is answered with a status other
    than 200 gives the empty list for its own category and raises nothing;
    [get_patient_data] then returns a bundle, and the pass appends a row,
    whenever the loops of the other categories raise nothing.  A Patient
    request that fails gives the not-found bundle instead, and the pass
    appends no row for that identifier. *)
Theorem failed_request_yields_empty_category (py : interp) (w : App.env)
  (token : json) (mrn : pystr) :
  let get := App.requests_get w in
  let headers := App.make_headers py token in
  (failed (get (App.patient_url mrn) headers) = true ->
     App.get_patient_data py get mrn token = Ok App.NOT_FOUND
     /\ App.analyze_patient py w token mrn = Ok None)
  /\ (forall pid,
        (failed (get (App.device_url py pid) headers) = true ->
           App.devices_of py get headers pid = Ok [])
        /\ (failed (get (App.condition_url py pid) headers) = true ->
           App.conditions_of py get headers pid = Ok [])
        /\ (failed (get (App.procedure_url py pid) headers) = true ->
           App.procedures_of py get headers pid = Ok [])
        /\ (failed (get (App.report_url py pid) headers) = true ->
           App.imaging_of py get headers pid = Ok []))
  /\ (forall pid name devs conds procs imgs,
        App.patient_lookup get mrn headers = Ok (Some (pid, name)) ->
        App.devices_of py get headers pid = Ok devs ->
        App.conditions_of py get headers pid = Ok conds ->
        App.procedures_of py get headers pid = Ok procs ->
        App.imaging_of py get headers pid = Ok imgs ->
        App.get_patient_data py get mrn token
          = Ok (pid, name, devs, conds, procs, imgs)
        /\ (truthy pid = true ->
              exists r, App.analyze_patient py w token mrn = Ok (Some r))).
Proof.
  intros get headers. split; [|split].
  - intros H. unfold App.analyze_patient, App.get_patient_data.
    fold get headers. rewrite (patient_lookup_failed get mrn headers H).
    split; reflexivity.
  - intros pid.
    unfold App.devices_of, App.conditions_of, App.procedures_of, App.imaging_of.
    repeat split; intros H; now rewrite (safe_get_json_failed _ _ _ H).
  - intros pid name devs conds procs imgs Hp Hd Hc Hpr Hi.
    assert (Hb : App.get_patient_data py get mrn token
                 = Ok (pid, name, devs, conds, procs, imgs)).
    { unfold App.get_patient_data. fold headers.
      rewrite Hp. simpl. rewrite Hd. simpl. rewrite Hc. simpl.
      rewrite Hpr. simpl. rewrite Hi. reflexivity. }
    split; [exact Hb|].
    intros Hpid. unfold App.analyze_patient. fold get. rewrite Hb. simpl.
    rewrite Hpid. simpl. eauto.
Qed.

Lemma failed_request_yields_empty_category_witness :
  App.get_patient_data Sample.ascii Sample.clinic_findings_down Sample.mrn1 Sample.token
  = Ok (Sample.jane_id, Sample.jane_name, [], [], [], [])
  /\ (exists r,
        App.analyze_patient Sample.ascii Sample.findings_down_world Sample.token Sample.mrn1
        = Ok (Some r))
  /\ App.analyze_patient Sample.ascii Sample.down_world Sample.token Sample.mrn1 = Ok None.
Proof.
  destruct (failed_request_yields_empty_category Sample.ascii Sample.findings_down_world
              Sample.token Sample.mrn1) as (_ & Hempty & Hbundle).
  destruct (Hempty Sample.jane_id) as (Hd & Hc & Hp & Hi).
  destruct (Hbundle Sample.jane_id Sample.jane_name [] [] [] []) as [Hb Hrow].
  - vm_compute. reflexivity.
  - apply Hd. vm_compute. reflexivity.
  - apply Hc. vm_compute. reflexivity.
  - apply Hp. vm_compute. reflexivity.
  - apply Hi. vm_compute. reflexivity.
  - split; [exact Hb|]. split; [apply Hrow; reflexivity|].
    apply (failed_request_yields_empty_category Sample.ascii Sample.down_world
             Sample.token Sample.mrn1).
    vm_compute. reflexivity.
Defined.

(** C2 fails for the Patient category.  When the Patient search is answered
    with status 503, the pass for that identifier appends no row, and the
    run over this one identifier ends with an empty report. *)
Lemma failed_patient_request_drops_row :
  failed (Sample.clinic_down (App.patient_url Sample.mrn1)
            (App.make_headers Sample.ascii Sample.token)) = true
  /\ App.get_patient_data Sample.ascii Sample.clinic_down Sample.mrn1 Sample.token
     = Ok (JNull, JNull, [], [], [], [])
  /\ App.analyze_patient Sample.ascii Sample.down_world Sample.token Sample.mrn1 = Ok None
  /\ App.run Sample.ascii (fun _ => Sample.down_world) Sample.token [Sample.mrn1] = Ok [].
Proof. repeat split; vm_compute; reflexivity. Qed.

(** ** Failure of the model *)

Lemma after_marker_ai_error_status (msg : pystr) :
  App.after_marker App.STATUS_MARKER (lit "AI Error: " ++ msg)
  = App.after_marker App.STATUS_MARKER msg.
Proof. reflexivity. Qed.

Lemma after_marker_ai_error_risk (msg : pystr) :
  App.after_marker App.RISK_MARKER (lit "AI Error: " ++ msg)
  = App.after_marker App.RISK_MARKER msg.
Proof. reflexivity. Qed.

Lemma extract_field_ai_error (msg : pystr) :
  App.extract_field App.STATUS_MARKER (lit "AI Error: " ++ msg)
  = App.extract_field App.STATUS_MARKER msg
  /\ App.extract_field App.RISK_MARKER (lit "AI Error: " ++ msg)
     = App.extract_field App.RISK_MARKER msg.
Proof.
  unfold App.extract_field, App.re_search_field.
  now rewrite after_marker_ai_error_status, after_marker_ai_error_risk.
Qed.

(** C6, as the code has it.  When the call of the model raises an exception
    with text [msg] for a patient that was found, nothing propagates: the
    pass appends a row whose analysis text is AI Error: followed by [msg].
    The status and risk fields are extracted from that analysis text like
    from any reply, so each of them is Unknown whenever [msg] does not
    contain the marker of the field. *)
Theorem ai_failure_still_yields_row (py : interp) (w : App.env) (token : json)
  (mrn : pystr) (pid name : json) (devs conds procs imgs : list pystr) (msg : pystr) :
  App.get_patient_data py (App.requests_get w) mrn token
    = Ok (pid, name, devs, conds, procs, imgs) ->
  truthy pid = true ->
  App.generate_content w (App.build_prompt py name devs conds procs imgs)
    = AiRaises msg ->
  exists status_val risk_val,
    App.analyze_patient py w token mrn
      = Ok (Some (App.make_row mrn name status_val risk_val
                    (lit "AI Error: " ++ msg) devs conds))
    /\ (~ occurs App.STATUS_MARKER msg -> status_val = lit "Unknown")
    /\ (~ occurs App.RISK_MARKER msg -> risk_val = lit "Unknown").
Proof.
  intros Hb Hpid Hai.
  exists (App.extract_field App.STATUS_MARKER msg),
         (App.extract_field App.RISK_MARKER msg).
  split; [|split; apply extract_field_unknown].
  unfold App.analyze_patient. rewrite Hb. simpl bind. rewrite Hpid. simpl negb.
  cbv iota. unfold App.analyze_with_ai. rewrite Hai.
  destruct (extract_field_ai_error msg) as [Hs Hr]. now rewrite Hs, Hr.
Qed.

Lemma ai_failure_still_yields_row_witness :
  exists status_val risk_val,
    App.analyze_patient Sample.ascii Sample.plain_failure_world Sample.token Sample.mrn1
      = Ok (Some (App.make_row Sample.mrn1 Sample.jane_name status_val risk_val
                    (lit "AI Error: 429 Resource has been exhausted")
                    [lit "Pacemaker"] [lit "Atrial fibrillation"]))
    /\ (~ occurs App.STATUS_MARKER (lit "429 Resource has been exhausted") ->
          status_val = lit "Unknown")
    /\ (~ occurs App.RISK_MARKER (lit "429 Resource has been exhausted") ->
          risk_val = lit "Unknown").
Proof.
  apply (ai_failure_still_yields_row Sample.ascii Sample.plain_failure_world
           Sample.token Sample.mrn1 Sample.jane_id Sample.jane_name
           [lit "Pacemaker"] [lit "Atrial fibrillation"]
           [lit "Appendectomy (2019-03-02)"] [lit "CT Head"]
           (lit "429 Resource has been exhausted"));
    vm_compute; reflexivity.
Defined.

(** C6 fails for the risk field.  The call of the model raises with an error
    text that quotes the output format of the prompt; the row is produced,
    its analysis starts with AI Error:, its status is Unknown, and its risk
    field holds the text found after the marker, not Unknown. *)
Lemma ai_error_text_parsed_as_risk :
  App.generate_content Sample.quoting_failure_world
    (App.build_prompt Sample.ascii Sample.jane_name
       [lit "Pacemaker"] [lit "Atrial fibrillation"]
       [lit "Appendectomy (2019-03-02)"] [lit "CT Head"])
  = AiRaises (lit "400 prompt rejected near: **Risk Level:** [Level]")
  /\ App.analyze_patient Sample.ascii Sample.quoting_failure_world Sample.token Sample.mrn1
     = Ok (Some (App.make_row Sample.mrn1 Sample.jane_name
                   (lit "Unknown") (lit "[Level]")
                   (lit "AI Error: 400 prompt rejected near: **Risk Level:** [Level]")
                   [lit "Pacemaker"] [lit "Atrial fibrillation"])).
Proof. split; vm_compute; reflexivity. Qed.

(** ** Number of rows *)

Lemma enumerate_cons {A} (i : nat) (x : A) (l : list A) :
  enumerate i (x :: l) = (i, x) :: enumerate (S i) l.
Proof. reflexivity. Qed.

Lemma enumerate_length {A} (i : nat) (l : list A) : length (enumerate i l) = length l.
Proof.
  unfold enumerate. rewrite length_combine, length_seq. apply Nat.min_id.
Qed.

(** A request that fails is flattened into an error row: the [except] branch
    of [fetch_patient_data] builds a dict that [parse_data_to_row] accepts. *)
Lemma error_response_row py msg mrn :
  MriTool.parse_data_to_row py (MriTool.error_response msg mrn)
  = Ok [(lit "MRN", JStr mrn); (lit "Status", JStr (lit "API Error"));
        (lit "Summary", JStr msg)].
Proof. reflexivity. Qed.

Lemma tool_main_loop_length py world mrn_list :
  forall i results,
  forallb (fun im => returns (MriTool.parse_data_to_row py
                                (MriTool.fetch_patient_data (world (fst im)) (snd im))))
          (enumerate i mrn_list) = true ->
  exists rows,
    MriTool.main_loop py world i mrn_list results = Ok (results ++ rows)
    /\ length rows = length mrn_list.
Proof.
  induction mrn_list as [|mrn rest IH]; intros i results H.
  - exists []. simpl. now rewrite app_nil_r.
  - rewrite enumerate_cons in H. simpl in H.
    apply andb_true_iff in H as [Hrow Hrest].
    apply returns_ok in Hrow as [flat_row Hrow].
    destruct (IH (S i) (results ++ [flat_row]) Hrest) as (rows & Hloop & Hlen).
    exists (flat_row :: rows). simpl. rewrite Hrow. simpl bind.
    rewrite Hloop, <- app_assoc. simpl. split; [reflexivity | now rewrite Hlen].
Qed.

Lemma app_main_loop_length py world token mrn_list :
  forall i results,
  forallb (fun im => returns (App.get_patient_data py
                                (App.requests_get (world (fst im))) (snd im) token))
          (enumerate i mrn_list) = true ->
  exists rows,
    App.main_loop py world token i mrn_list results = Ok (results ++ rows)
    /\ length rows
       = length (filter (fun im => patient_found py (world (fst im)) token (snd im))
                   (enumerate i mrn_list)).
Proof.
  induction mrn_list as [|mrn rest IH]; intros i results H.
  - exists []. simpl. now rewrite app_nil_r.
  - rewrite enumerate_cons in H |- *. simpl in H.
    apply andb_true_iff in H as [Hget Hrest].
    apply returns_ok in Hget as [b Hget].
    destruct b as [[[[[pid name] devs] conds] procs] imgs].
    simpl filter. unfold patient_found at 1. simpl fst. simpl snd.
    simpl App.main_loop. unfold App.analyze_patient. rewrite Hget. simpl bind.
    destruct (truthy pid); simpl.
    + match goal with
      | |- context [App.main_loop _ _ _ _ _ (results ++ [?r])] =>
          destruct (IH (S i) (results ++ [r]) Hrest) as (rows & Hloop & Hlen);
          exists (r :: rows)
      end.
      rewrite Hloop, <- app_assoc. simpl. split; [reflexivity | now rewrite Hlen].
    + destruct (IH (S i) results Hrest) as (rows & Hloop & Hlen).
      exists rows. split; assumption.
Qed.

(** C1, as the code has it.  A run is left early, without a report, by any
    exception that is not caught; a failed request is never one in variant 2,
    where it becomes an error row.  Whenever [parse_data_to_row] raises
    nothing on the data fetched for each identifier, the run of variant 2
    returns as many rows as identifiers were submitted, error rows included.
    Whenever [get_patient_data] raises nothing for each identifier, the run
    of variant 1 returns as many rows as there are identifiers whose Patient
    lookup succeeded; an identifier that was not found adds no row. *)
Theorem row_counts (py : interp) :
  (forall msg mrn,
      returns (MriTool.parse_data_to_row py (MriTool.error_response msg mrn)) = true)
  /\ (forall world mrn_list,
      forallb (fun im => returns (MriTool.parse_data_to_row py
                                    (MriTool.fetch_patient_data (world (fst im)) (snd im))))
              (enumerate 0 mrn_list) = true ->
      exists rows,
        MriTool.run py world mrn_list = Ok rows /\ length rows = length mrn_list)
  /\ (forall world token mrn_list,
      forallb (fun im => returns (App.get_patient_data py
                                    (App.requests_get (world (fst im))) (snd im) token))
              (enumerate 0 mrn_list) = true ->
      exists rows,
        App.run py world token mrn_list = Ok rows
        /\ length rows
           = length (filter (fun im => patient_found py (world (fst im)) token (snd im))
                       (enumerate 0 mrn_list))).
Proof.
  split; [|split].
  - intros msg mrn. now rewrite error_response_row.
  - intros world mrn_list H.
    destruct (tool_main_loop_length py world mrn_list 0%nat [] H) as (rows & Hrun & Hlen).
    exists rows. split; assumption.
  - intros world token mrn_list H.
    destruct (app_main_loop_length py world token mrn_list 0%nat [] H)
      as (rows & Hrun & Hlen).
    exists rows. split; assumption.
Qed.

Lemma row_counts_witness :
  (exists rows,
     MriTool.run Sample.ascii Sample.two_post_world [Sample.mrn1; Sample.mrn2] = Ok rows
     /\ length rows = 2%nat)
  /\ (exists rows,
        App.run Sample.ascii Sample.two_pass_world Sample.token [Sample.mrn1; Sample.mrn2]
        = Ok rows
        /\ length rows = 1%nat).
Proof.
  destruct (row_counts Sample.ascii) as (_ & Htool & Happ). split.
  - apply (Htool Sample.two_post_world [Sample.mrn1; Sample.mrn2]).
    vm_compute. reflexivity.
  - apply (Happ Sample.two_pass_world Sample.token [Sample.mrn1; Sample.mrn2]).
    vm_compute. reflexivity.
Defined.

(** C1 fails when an exception leaves a pass.  In variant 2 the endpoint
    answers the one identifier of the batch with status 200 and a body whose
    record number is a JSON number; [parse_data_to_row] raises on it, the run
    ends there, and no row stands for the identifier.  In variant 1 the
    Patient search finds the one identifier of the batch, but the resource
    carries no display text for the name; line 75 raises, the run ends
    there, and no row stands for the patient that was found. *)
Lemma uncaught_exception_ends_run :
  (MriTool.fetch_patient_data (Sample.endpoint (Sample.ok_json Sample.numeric_mrn_answer))
     Sample.mrn1 = Sample.numeric_mrn_answer
   /\ MriTool.parse_data_to_row Sample.ascii Sample.numeric_mrn_answer
      = Raise AttributeError
   /\ MriTool.run Sample.ascii
        (fun _ => Sample.endpoint (Sample.ok_json Sample.numeric_mrn_answer))
        [Sample.mrn1] = Raise AttributeError)
  /\ (App.patient_id (App.safe_get_json Sample.clinic_without_display_name
                        (App.patient_url Sample.mrn1)
                        (App.make_headers Sample.ascii Sample.token))
      = Ok (Sample.s "erXuFYUfucBZaryVksYEcMg3")
      /\ App.get_patient_data Sample.ascii Sample.clinic_without_display_name
           Sample.mrn1 Sample.token = Raise KeyError
      /\ App.run Sample.ascii (fun _ => Sample.nameless_world) Sample.token [Sample.mrn1]
         = Raise KeyError).
Proof. repeat split; vm_compute; reflexivity. Qed.

(** ** Flattening of a triage response *)

Lemma error_branch_row py d e :
  lookup (lit "error") d = Some e ->
  patient_info_usable d = true ->
  MriTool.parse_data_to_row py (JDict d)
  = Ok [(lit "MRN", reported_mrn d); (lit "Status", JStr (lit "API Error"));
        (lit "Summary", e)].
Proof.
  intros He Hp. unfold MriTool.parse_data_to_row, patient_info_usable, optional_object, reported_mrn in *.
  simpl py_in. rewrite He. simpl bind. rewrite He.
  destruct (lookup (lit "patient_info") d) as [[| | | | |l|p]|]; try discriminate Hp.
  - simpl. destruct (lookup (lit "mrn") p); reflexivity.
  - reflexivity.
Qed.

(** C4, as the code has it.  For every response dict that holds the key
    error with the value timeout and whose patient_info is absent or is
    itself a dict, [parse_data_to_row] returns a row whose Status is
    API Error and whose Summary is timeout. *)
Theorem timeout_error_row (py : interp) (d : pydict) :
  lookup (lit "error") d = Some (JStr (lit "timeout")) ->
  patient_info_usable d = true ->
  exists r,
    MriTool.parse_data_to_row py (JDict d) = Ok r
    /\ lookup (lit "Status") r = Some (JStr (lit "API Error"))
    /\ lookup (lit "Summary") r = Some (JStr (lit "timeout")).
Proof.
  intros He Hp. eexists. split; [apply (error_branch_row py d _ He Hp)|].
  split; reflexivity.
Qed.

Lemma timeout_error_row_witness :
  exists r,
    MriTool.parse_data_to_row Sample.ascii
      (JDict [(lit "error", JStr (lit "timeout"));
              (lit "patient_info", JDict [(lit "mrn", JStr Sample.mrn1)])]) = Ok r
    /\ lookup (lit "Status") r = Some (JStr (lit "API Error"))
    /\ lookup (lit "Summary") r = Some (JStr (lit "timeout")).
Proof.
  apply (timeout_error_row Sample.ascii
           [(lit "error", JStr (lit "timeout"));
            (lit "patient_info", JDict [(lit "mrn", JStr Sample.mrn1)])]);
    reflexivity.
Defined.

(** C4 fails when patient_info is present and is not a dict.  On the
    response with error timeout and patient_info null, reading the record
    number raises, and no row is returned. *)
Lemma timeout_with_null_patient_info_raises :
  MriTool.parse_data_to_row Sample.ascii
    (JDict [(lit "error", JStr (lit "timeout")); (lit "patient_info", JNull)])
  = Raise AttributeError.
Proof. reflexivity. Qed.

(** C10, as the code has it.  For every response dict that holds the key
    error and whose patient_info is absent or is itself a dict,
    [parse_data_to_row] returns a dict with exactly the three keys MRN,
    Status and Summary: the record number read from patient_info (Unknown
    when it has none), the text API Error, and the value of the error key.
    No other field of the response is read, so the error branch comes before
    every extraction of the success path. *)
Theorem error_branch_takes_precedence (py : interp) (d : pydict) (e : json) :
  lookup (lit "error") d = Some e ->
  patient_info_usable d = true ->
  exists r,
    MriTool.parse_data_to_row py (JDict d) = Ok r
    /\ columns r = [lit "MRN"; lit "Status"; lit "Summary"]
    /\ r = [(lit "MRN", reported_mrn d); (lit "Status", JStr (lit "API Error"));
            (lit "Summary", e)].
Proof.
  intros He Hp. eexists. split; [apply (error_branch_row py d e He Hp)|].
  split; reflexivity.
Qed.

Lemma error_branch_takes_precedence_witness :
  exists r,
    MriTool.parse_data_to_row Sample.ascii
      (JDict [(lit "error", JStr (lit "upstream unavailable"));
              (lit "patient_info", JDict [(lit "mrn", JStr Sample.mrn1)]);
              (lit "mri_safety_assessment", JInt 7);
              (lit "analysis_details", JNull)]) = Ok r
    /\ columns r = [lit "MRN"; lit "Status"; lit "Summary"]
    /\ r = [(lit "MRN", JStr Sample.mrn1); (lit "Status", JStr (lit "API Error"));
            (lit "Summary", JStr (lit "upstream unavailable"))].
Proof.
  apply (error_branch_takes_precedence Sample.ascii
           [(lit "error", JStr (lit "upstream unavailable"));
            (lit "patient_info", JDict [(lit "mrn", JStr Sample.mrn1)]);
            (lit "mri_safety_assessment", JInt 7);
            (lit "analysis_details", JNull)]
           (JStr (lit "upstream unavailable")));
    reflexivity.
Defined.

(** C10 fails when patient_info is present and is not a dict.  On a
    response that holds the key error and gives patient_info as a bare
    string, reading the record number raises, and no dict is returned. *)
Lemma error_with_text_patient_info_raises :
  MriTool.parse_data_to_row Sample.ascii
    (JDict [(lit "error", JStr (lit "upstream unavailable"));
            (lit "patient_info", JStr Sample.mrn1);
            (lit "timestamp", JStr (lit "2024-05-01T10:00:00Z"))])
  = Raise AttributeError.
Proof. reflexivity. Qed.

(** ** Columns of a row *)

Lemma app_row_columns py w token mrn r :
  App.analyze_patient py w token mrn = Ok (Some r) -> columns r = APP_COLUMNS.
Proof.
  intros H. unfold App.analyze_patient in H. bind_inv H.
  destruct x as [[[[[pid name] devs] conds] procs] imgs].
  destruct (truthy pid); simpl in H; inversion H; subst. reflexivity.
Qed.

Lemma tool_row_columns py data r :
  MriTool.parse_data_to_row py data = Ok r ->
  (py_in (lit "error") data = Ok true /\ columns r = MriTool.ERROR_COLUMNS)
  \/ (py_in (lit "error") data = Ok false /\ columns r = MriTool.REPORT_COLUMNS).
Proof.
  intros H. unfold MriTool.parse_data_to_row in H.
  apply bind_ok in H as (has_error & Hin & H).
  destruct has_error; bind_inv H; inversion H; subst; [left | right];
    (split; [assumption | reflexivity]).
Qed.

Lemma empty_response_row py d :
  lookup (lit "error") d = None ->
  lookup (lit "mri_safety_assessment") d = None ->
  lookup (lit "patient_info") d = None ->
  lookup (lit "analysis_details") d = None ->
  lookup (lit "timestamp") d = None ->
  MriTool.parse_data_to_row py (JDict d)
  = Ok (map (fun c => (c, JStr [])) MriTool.REPORT_COLUMNS).
Proof.
  intros He Ha Hp Hd Ht. unfold MriTool.parse_data_to_row.
  simpl py_in. rewrite He. simpl bind. unfold py_get at 1 2 3.
  rewrite Ha, Hp, Hd. simpl. now rewrite Ht.
Qed.

Lemma sub_get_absent (outer inner : pystr) (d : pydict) (o default : json) :
  absent_in outer inner d ->
  py_get (JDict d) outer (JDict []) = Ok o ->
  py_get o inner default = Ok default.
Proof.
  intros Habs Ho. cbn [py_get] in Ho.
  destruct Habs as [Hnone | (sub & Hsome & Hinner)].
  - rewrite Hnone in Ho. inversion Ho; subst o. reflexivity.
  - rewrite Hsome in Ho. inversion Ho; subst o. cbn [py_get]. now rewrite Hinner.
Qed.

Lemma patient_field_absent (o : json) (field prefix : pystr) :
  py_get o field (JStr []) = Ok (JStr []) ->
  MriTool.patient_field o field prefix = Ok (JStr []).
Proof. intros H. unfold MriTool.patient_field. rewrite H. reflexivity. Qed.

Lemma ok_inj {A} (a b : A) : Ok a = Ok b -> a = b.
Proof. intros H. now inversion H. Qed.

Lemma report_row_defaults py d r :
  lookup (lit "error") d = None ->
  MriTool.parse_data_to_row py (JDict d) = Ok r ->
  (forall field column,
      In (field, column) PATIENT_CELLS ->
      absent_in (lit "patient_info") field d -> lookup column r = Some (JStr []))
  /\ (forall field column,
        In (field, column) ASSESSMENT_CELLS ->
        absent_in (lit "mri_safety_assessment") field d ->
        lookup column r = Some (JStr []))
  /\ (absent_in (lit "analysis_details") (lit "individual_findings") d ->
      lookup (lit "Devices/Implants Found") r = Some (JStr []))
  /\ (lookup (lit "timestamp") d = None -> lookup (lit "Timestamp") r = Some (JStr [])).
Proof.
  intros He H. unfold MriTool.parse_data_to_row in H.
  cbn [py_in] in H. rewrite He in H. cbn [bind] in H.
  apply bind_ok in H as (assessment & Ha & H).
  apply bind_ok in H as (patient & Hp & H).
  apply bind_ok in H as (details & Hd & H).
  apply bind_ok in H as (findings_list & Hf & H).
  apply bind_ok in H as (items & Hi & H).
  apply bind_ok in H as (devices_found & Hloop & H).
  apply bind_ok in H as (concerns & Hc & H).
  apply bind_ok in H as (concerns_str & Hcs & H).
  apply bind_ok in H as (recommendations & Hr & H).
  apply bind_ok in H as (recs_str & Hrs & H).
  apply bind_ok in H as (mrn & Hmrn & H).
  apply bind_ok in H as (name & Hname & H).
  apply bind_ok in H as (dob & Hdob & H).
  apply bind_ok in H as (gender & Hgender & H).
  apply bind_ok in H as (status & Hstatus & H).
  apply bind_ok in H as (risk & Hrisk & H).
  apply bind_ok in H as (summary & Hsummary & H).
  apply bind_ok in H as (timestamp & Htime & H).
  inversion H; subst r. clear H.
  split; [|split; [|split]].
  - intros field column Hin Habs.
    pose proof (patient_field_absent patient field)
      as Hfield.
    pose proof (sub_get_absent _ _ _ _ (JStr []) Habs Hp) as Hget.
    destruct Hin as [E|[E|[E|[E|[]]]]]; inversion E; subst field column.
    + rewrite <- (ok_inj _ _ (eq_trans (eq_sym (Hfield MriTool.HOSPITAL Hget)) Hmrn)).
      reflexivity.
    + rewrite <- (ok_inj _ _ (eq_trans (eq_sym (Hfield MriTool.BUST Hget)) Hname)).
      reflexivity.
    + rewrite <- (ok_inj _ _ (eq_trans (eq_sym (Hfield MriTool.CALENDAR Hget)) Hdob)).
      reflexivity.
    + rewrite <- (ok_inj _ _ (eq_trans (eq_sym (Hfield MriTool.TRANSGENDER Hget)) Hgender)).
      reflexivity.
  - intros field column Hin Habs.
    pose proof (fun default => sub_get_absent _ _ _ _ default Habs Ha) as Hget.
    destruct Hin as [E|[E|[E|[E|[E|[]]]]]]; inversion E; subst field column.
    + rewrite <- (ok_inj _ _ (eq_trans (eq_sym (Hget (JStr []))) Hstatus)). reflexivity.
    + rewrite <- (ok_inj _ _ (eq_trans (eq_sym (Hget (JStr []))) Hrisk)). reflexivity.
    + rewrite <- (ok_inj _ _ (eq_trans (eq_sym (Hget (JStr []))) Hsummary)). reflexivity.
    + pose proof (ok_inj _ _ (eq_trans (eq_sym (Hget (JList []))) Hc)) as Ec.
      subst concerns. cbn in Hcs. inversion Hcs; subst concerns_str. reflexivity.
    + pose proof (ok_inj _ _ (eq_trans (eq_sym (Hget (JList []))) Hr)) as Er.
      subst recommendations. cbn in Hrs. inversion Hrs; subst recs_str. reflexivity.
  - intros Habs.
    pose proof (ok_inj _ _ (eq_trans (eq_sym (sub_get_absent _ _ _ _ (JList []) Habs Hd)) Hf))
      as Ef.
    subst findings_list. cbn in Hi. inversion Hi; subst items.
    cbn in Hloop. inversion Hloop; subst devices_found. reflexivity.
  - intros Hnone. cbn [py_get] in Htime. rewrite Hnone in Htime.
    inversion Htime; subst timestamp. reflexivity.
Qed.

(** C5, as the code has it.  Every row that variant 1 appends has the seven
    columns of its schema.  In variant 2 the column set depends on the
    branch: a row flattened from a response without the key error has the
    eleven report columns, and a row flattened from a response with the key
    error has only the three columns MRN, Status and Summary.  In every
    report row a field that is missing from the response is rendered as the
    empty string: a field of patient_info or of mri_safety_assessment whose
    key is absent or whose enclosing object is absent, the device cell when
    there is no list of findings, and the timestamp when its key is absent;
    a response that holds none of the fields read gives a row of eleven
    empty cells.  In every error row whose response has no patient_info, or
    a patient_info without a record number, the MRN is Unknown. *)
Theorem row_columns (py : interp) :
  (forall w token mrn r,
      App.analyze_patient py w token mrn = Ok (Some r) -> columns r = APP_COLUMNS)
  /\ (forall data r,
        MriTool.parse_data_to_row py data = Ok r ->
        (py_in (lit "error") data = Ok true /\ columns r = MriTool.ERROR_COLUMNS)
        \/ (py_in (lit "error") data = Ok false /\ columns r = MriTool.REPORT_COLUMNS))
  /\ (forall d r,
        lookup (lit "error") d = None ->
        MriTool.parse_data_to_row py (JDict d) = Ok r ->
        (forall field column,
            In (field, column) PATIENT_CELLS ->
            absent_in (lit "patient_info") field d ->
            lookup column r = Some (JStr []))
        /\ (forall field column,
              In (field, column) ASSESSMENT_CELLS ->
              absent_in (lit "mri_safety_assessment") field d ->
              lookup column r = Some (JStr []))
        /\ (absent_in (lit "analysis_details") (lit "individual_findings") d ->
            lookup (lit "Devices/Implants Found") r = Some (JStr []))
        /\ (lookup (lit "timestamp") d = None ->
            lookup (lit "Timestamp") r = Some (JStr [])))
  /\ (forall d,
        lookup (lit "error") d = None ->
        lookup (lit "mri_safety_assessment") d = None ->
        lookup (lit "patient_info") d = None ->
        lookup (lit "analysis_details") d = None ->
        lookup (lit "timestamp") d = None ->
        MriTool.parse_data_to_row py (JDict d)
        = Ok (map (fun c => (c, JStr [])) MriTool.REPORT_COLUMNS))
  /\ (forall d e,
        lookup (lit "error") d = Some e ->
        absent_in (lit "patient_info") (lit "mrn") d ->
        MriTool.parse_data_to_row py (JDict d)
        = Ok [(lit "MRN", JStr (lit "Unknown")); (lit "Status", JStr (lit "API Error"));
              (lit "Summary", e)]).
Proof.
  split; [|split; [|split; [|split]]].
  - apply app_row_columns.
  - apply tool_row_columns.
  - apply report_row_defaults.
  - apply empty_response_row.
  - intros d e He Habs.
    rewrite (error_branch_row py d e He).
    + unfold reported_mrn.
      destruct Habs as [Hnone | (o & Hsome & Hinner)];
        [now rewrite Hnone | now rewrite Hsome, Hinner].
    + unfold patient_info_usable, optional_object.
      destruct Habs as [Hnone | (o & Hsome & _)];
        [now rewrite Hnone | now rewrite Hsome].
Qed.

Lemma row_columns_witness :
  (exists r,
     App.analyze_patient Sample.ascii Sample.clinic_world Sample.token Sample.mrn1
     = Ok (Some r) /\ columns r = APP_COLUMNS)
  /\ (exists r,
        MriTool.parse_data_to_row Sample.ascii Sample.triage_answer = Ok r
        /\ columns r = MriTool.REPORT_COLUMNS)
  /\ (exists r,
        MriTool.parse_data_to_row Sample.ascii Sample.bare_answer = Ok r
        /\ lookup (lit "MRN") r = Some (JStr (lit "203715"))
        /\ lookup (lit "Name") r = Some (JStr [])
        /\ lookup (lit "Risk Level") r = Some (JStr [])
        /\ lookup (lit "Devices/Implants Found") r = Some (JStr [])
        /\ lookup (lit "Timestamp") r = Some (JStr []))
  /\ MriTool.parse_data_to_row Sample.ascii
       (JDict [(lit "error", JStr (lit "timeout")); (lit "patient_info", JDict [])])
     = Ok [(lit "MRN", JStr (lit "Unknown")); (lit "Status", JStr (lit "API Error"));
           (lit "Summary", JStr (lit "timeout"))].
Proof.
  destruct (row_columns Sample.ascii) as (Happ & Htool & Hcells & _ & Herr).
  split; [|split; [|split]].
  - assert (E : App.analyze_patient Sample.ascii Sample.clinic_world Sample.token Sample.mrn1
                = Ok (Some (App.make_row Sample.mrn1 Sample.jane_name
                              (lit "Conditional") (lit "Mod") Sample.safe_reply
                              [lit "Pacemaker"] [lit "Atrial fibrillation"])))
      by (vm_compute; reflexivity).
    eexists. split; [exact E | exact (Happ _ _ _ _ E)].
  - destruct (MriTool.parse_data_to_row Sample.ascii Sample.triage_answer) as [r|] eqn:E;
      [|vm_compute in E; discriminate E].
    exists r. split; [reflexivity|].
    destruct (Htool _ _ E) as [[Hin _]|[_ Hc]]; [vm_compute in Hin; discriminate Hin | exact Hc].
  - destruct (MriTool.parse_data_to_row Sample.ascii Sample.bare_answer) as [r|] eqn:E;
      [|vm_compute in E; discriminate E].
    exists r. split; [reflexivity|].
    set (d := [(lit "patient_info", JDict [(lit "mrn", JStr (lit "203715"))])]).
    destruct (Hcells d r eq_refl E) as (Hpatient & Hassess & Hdevices & Htime).
    split; [vm_compute in E; inversion E; reflexivity|].
    split; [|split; [|split]].
    + apply (Hpatient (lit "name") (lit "Name")); [right; left; reflexivity|].
      right. exists [(lit "mrn", JStr (lit "203715"))]. split; reflexivity.
    + apply (Hassess (lit "risk") (lit "Risk Level")); [right; left; reflexivity|].
      left. reflexivity.
    + apply Hdevices. left. reflexivity.
    + apply Htime. reflexivity.
  - apply Herr; [reflexivity|]. right. exists []. split; reflexivity.
Defined.

(** C5 fails for the error rows of variant 2.  In a batch of two identifiers
    whose first post is answered and whose second meets status 500, the
    report holds a row of eleven columns and a row of three.  Data that is
    present but null is not rendered as the empty string either: a response
    whose timestamp is null gives a row whose Timestamp is null. *)
Lemma error_row_has_fewer_columns :
  (exists report_row error_row,
     MriTool.run Sample.ascii Sample.two_post_world [Sample.mrn1; Sample.mrn2]
     = Ok [report_row; error_row]
     /\ columns report_row = MriTool.REPORT_COLUMNS
     /\ columns error_row = [lit "MRN"; lit "Status"; lit "Summary"]
     /\ columns report_row <> columns error_row
     /\ lookup (lit "Name") error_row = None)
  /\ (exists r,
        MriTool.parse_data_to_row Sample.ascii Sample.null_timestamp_answer = Ok r
        /\ lookup (lit "Timestamp") r = Some JNull).
Proof.
  split.
  - eexists _, _. split; [vm_compute; reflexivity|].
    repeat split; try (vm_compute; reflexivity).
    vm_compute. discriminate.
  - eexists. split; vm_compute; reflexivity.
Qed.

(** * Further properties of the two scripts *)

(** ** Stripping *)

Lemma take_drop_while (f : codepoint -> bool) (s : pystr) :
  s = take_while f s ++ drop_while f s.
Proof.
  induction s as [|c s IH]; simpl; [reflexivity|].
  destruct (f c); simpl; [now rewrite <- IH | reflexivity].
Qed.

Lemma take_while_all (f : codepoint -> bool) (s : pystr) :
  Forall (fun c => f c = true) (take_while f s).
Proof.
  induction s as [|c s IH]; simpl; [constructor|].
  destruct (f c) eqn:E; constructor; assumption.
Qed.

Lemma drop_while_head (f : codepoint -> bool) (s : pystr) (c : codepoint) (t : pystr) :
  drop_while f s = c :: t -> f c = false.
Proof.
  induction s as [|x s IH]; simpl; [discriminate|].
  destruct (f x) eqn:E; [assumption|]. intros H. inversion H; subst. exact E.
Qed.

Lemma drop_while_starts_clean (s : pystr) : starts_clean (drop_while isspace s) = true.
Proof.
  destruct (drop_while isspace s) as [|c t] eqn:E; [reflexivity|].
  simpl. now rewrite (drop_while_head _ _ _ _ E).
Qed.

Lemma drop_while_clean (s : pystr) : starts_clean s = true -> drop_while isspace s = s.
Proof.
  destruct s as [|c s]; [reflexivity|]. simpl. now destruct (isspace c).
Qed.

(** [rstrip] cuts a run of white space off the end. *)
Lemma rstrip_split (s : pystr) :
  exists ws, s = rstrip s ++ ws /\ Forall (fun c => isspace c = true) ws.
Proof.
  exists (rev (take_while isspace (rev s))). split.
  - unfold rstrip. rewrite <- rev_app_distr, <- take_drop_while. now rewrite rev_involutive.
  - apply Forall_rev, take_while_all.
Qed.

Lemma rstrip_clean (s : pystr) : starts_clean (rev s) = true -> rstrip s = s.
Proof.
  intros H. unfold rstrip. rewrite (drop_while_clean _ H). apply rev_involutive.
Qed.

Lemma rstrip_keeps_start (s : pystr) : starts_clean s = true -> starts_clean (rstrip s) = true.
Proof.
  intros H. destruct (rstrip_split s) as (ws & Hs & Hws).
  destruct (rstrip s) as [|c t]; [reflexivity|].
  rewrite Hs in H. exact H.
Qed.

Lemma strip_trimmed (s : pystr) : trimmed (strip s) = true.
Proof.
  unfold trimmed. apply andb_true_iff. split.
  - unfold strip. apply rstrip_keeps_start, drop_while_starts_clean.
  - unfold strip, rstrip. rewrite rev_involutive. apply drop_while_starts_clean.
Qed.

Lemma trimmed_strip (s : pystr) : trimmed s = true -> strip s = s.
Proof.
  unfold trimmed. intros H. apply andb_true_iff in H as [Hstart Hend].
  unfold strip, lstrip. rewrite (drop_while_clean _ Hstart). now apply rstrip_clean.
Qed.

Lemma replace_newline_absent (s : pystr) : ~ In NL s -> replace [NL] [SP] s = s.
Proof.
  rewrite replace_char. induction s as [|c s IH]; [reflexivity|].
  intros H. cbn [map]. destruct (N.eqb NL c) eqn:E.
  - apply N.eqb_eq in E. exfalso. apply H. now left.
  - rewrite IH; [reflexivity|]. intros Hin. apply H. now right.
Qed.

(** ** Cleaning, again *)

Lemma slice_to_all (n : Z) (s : pystr) : len s <= n -> slice_to n s = s.
Proof. unfold len, slice_to. intros H. apply firstn_all2. lia. Qed.

Lemma replace_char_len (c d : codepoint) (s : pystr) : len (replace [c] [d] s) = len s.
Proof. unfold len. now rewrite replace_char, length_map. Qed.

Lemma slice_to_starts_clean (n : Z) (s : pystr) :
  starts_clean s = true -> starts_clean (slice_to n s) = true.
Proof.
  unfold slice_to. destruct s as [|c s]; [now rewrite firstn_nil|].
  destruct (Z.to_nat n); simpl; auto.
Qed.

(** X1.  [clean] leaves a text unchanged when the text is already tidy: at
    most 300 characters, no line feed, no white space at either end. *)
Theorem clean_keeps_tidy_text (py : interp) (s : pystr) :
  len s <= 300 -> ~ In NL s -> trimmed s = true ->
  App.clean py (JStr s) = s.
Proof.
  intros Hlen Hnl Htrim. unfold App.clean. simpl App.py_str.
  rewrite (replace_newline_absent s Hnl), (trimmed_strip s Htrim).
  now apply slice_to_all.
Qed.

Lemma clean_keeps_tidy_text_witness :
  App.clean Sample.ascii (JStr (lit "Cardiac pacemaker, dual chamber"))
  = lit "Cardiac pacemaker, dual chamber".
Proof.
  apply (clean_keeps_tidy_text Sample.ascii (lit "Cardiac pacemaker, dual chamber")).
  - vm_compute. discriminate.
  - intros H. vm_compute in H. repeat (destruct H as [H|H]; [discriminate H|]). exact H.
  - reflexivity.
Defined.

(** X2.  The text [clean] returns never starts with white space.  When the
    text given has at most 300 characters, the result does not end with
    white space either; a longer text is cut after stripping, so the cut may
    leave white space at the end. *)
Theorem clean_trims (py : interp) (t : json) :
  starts_clean (App.clean py t) = true
  /\ (len (App.py_str py t) <= 300 -> trimmed (App.clean py t) = true).
Proof.
  unfold App.clean. split.
  - apply slice_to_starts_clean.
    pose proof (strip_trimmed (replace [NL] [SP] (App.py_str py t))) as H.
    unfold trimmed in H. now apply andb_true_iff in H as [H _].
  - intros Hlen. rewrite slice_to_all; [apply strip_trimmed|].
    pose proof (strip_length (replace [NL] [SP] (App.py_str py t))) as Hs.
    pose proof (replace_char_len NL SP (App.py_str py t)) as Hr.
    unfold len in *. lia.
Qed.

Lemma clean_trims_witness :
  trimmed (App.clean Sample.ascii (Sample.s "  Hip replacement (left)  ")) = true.
Proof.
  apply (clean_trims Sample.ascii (Sample.s "  Hip replacement (left)  ")).
  vm_compute. discriminate.
Defined.

(** ** The extracted fields *)

(** X3.  Whatever the reply of the model, a field extracted from it is one
    line without white space at either end: it holds no line feed and is
    trimmed (it may be empty). *)
Theorem extracted_field_is_one_trimmed_line (marker ai_report : pystr) :
  ~ In NL (App.extract_field marker ai_report)
  /\ trimmed (App.extract_field marker ai_report) = true.
Proof.
  unfold App.extract_field, App.re_search_field.
  destruct (App.after_marker marker ai_report) as [rest|].
  - split; [|apply strip_trimmed].
    intros H. apply strip_incl in H.
    pose proof (take_while_all (fun c => negb (c =? NL)%N)
                  (drop_while isspace rest)) as Hall.
    rewrite Forall_forall in Hall. specialize (Hall NL H).
    now rewrite N.eqb_refl in Hall.
  - split; [|reflexivity].
    intros H. vm_compute in H. repeat (destruct H as [H|H]; [discriminate H|]). exact H.
Qed.

(** ** The identifier list *)

Lemma split_on_pieces (sep : codepoint) (s : pystr) :
  Forall (fun piece => forall c, In c piece -> In c s /\ c <> sep) (split_on sep s).
Proof.
  induction s as [|x s IH]; simpl.
  - constructor; [|constructor]. intros c [].
  - destruct (N.eqb x sep) eqn:E.
    + constructor; [intros c []|].
      eapply Forall_impl; [|exact IH]. intros piece H c Hc.
      destruct (H c Hc). split; [now right | assumption].
    + apply N.eqb_neq in E.
      destruct (split_on sep s) as [|piece pieces].
      * constructor; [|constructor]. intros c [<-|[]]. split; [now left | assumption].
      * inversion IH as [|? ? Hpiece Hpieces]; subst. constructor.
        -- intros c [<-|Hc]; [split; [now left | assumption]|].
           destruct (Hpiece c Hc). split; [now right | assumption].
        -- eapply Forall_impl; [|exact Hpieces]. intros p H c Hc.
           destruct (H c Hc). split; [now right | assumption].
Qed.

(** X4.  Every identifier of the list parsed from the input is not empty,
    has no white space at either end and holds no comma. *)
Theorem mrn_list_holds_identifiers (mrn_input : pystr) :
  Forall identifier (mrn_list_of mrn_input).
Proof.
  apply Forall_forall. intros x Hx. unfold mrn_list_of in Hx.
  apply filter_In in Hx as [Hx Hne]. apply in_map_iff in Hx as (piece & <- & Hpiece).
  pose proof (split_on_pieces COMMA mrn_input) as Hall.
  rewrite Forall_forall in Hall. specialize (Hall piece Hpiece).
  repeat split.
  - intros E. rewrite E in Hne. discriminate Hne.
  - apply strip_trimmed.
  - intros Hc. apply strip_incl in Hc. destruct (Hall COMMA Hc) as [_ Hneq]. now apply Hneq.
Qed.

Lemma split_on_plain (sep : codepoint) (a : pystr) :
  ~ In sep a -> split_on sep a = [a].
Proof.
  induction a as [|c a IH]; simpl; [reflexivity|]. intros H.
  destruct (N.eqb c sep) eqn:E.
  - apply N.eqb_eq in E. exfalso. apply H. now left.
  - rewrite IH; [reflexivity|]. intros Hin. apply H. now right.
Qed.

Lemma split_on_app (sep : codepoint) (a b : pystr) :
  ~ In sep a -> split_on sep (a ++ sep :: b) = a :: split_on sep b.
Proof.
  induction a as [|c a IH]; simpl; intros H.
  - now rewrite N.eqb_refl.
  - destruct (N.eqb c sep) eqn:E.
    + apply N.eqb_eq in E. exfalso. apply H. now left.
    + rewrite IH; [reflexivity|]. intros Hin. apply H. now right.
Qed.

Lemma drop_while_app_all (f : codepoint -> bool) (pre s : pystr) :
  Forall (fun c => f c = true) pre -> drop_while f (pre ++ s) = drop_while f s.
Proof.
  induction 1 as [|c pre Hc Hpre IH]; simpl; [reflexivity|]. now rewrite Hc.
Qed.

Lemma strip_padded (pre s : pystr) :
  Forall (fun c => isspace c = true) pre -> trimmed s = true -> strip (pre ++ s) = s.
Proof.
  intros Hpre Hs. unfold strip, lstrip. rewrite (drop_while_app_all _ _ _ Hpre).
  exact (trimmed_strip s Hs).
Qed.

Lemma strip_blank (s : pystr) : Forall (fun c => isspace c = true) s -> strip s = [].
Proof.
  intros H. unfold strip, lstrip. rewrite <- (app_nil_r s) at 1.
  now rewrite (drop_while_app_all _ _ _ H).
Qed.

Lemma strip_join_pieces (ids : list pystr) :
  Forall identifier ids -> ids <> [] ->
  forall pre, Forall (fun c => isspace c = true) pre -> ~ In COMMA pre ->
  map strip (split_on COMMA (pre ++ join (lit ", ") ids)) = ids.
Proof.
  induction 1 as [|id rest Hid Hrest IH]; intros Hne pre Hpre Hcomma; [congruence|].
  destruct Hid as (_ & Htrim & Hid).
  destruct rest as [|id2 rest].
  - simpl join. rewrite split_on_plain.
    + simpl. now rewrite strip_padded.
    + intros H. apply in_app_or in H. tauto.
  - change (join (lit ", ") (id :: id2 :: rest))
      with (id ++ COMMA :: [SP] ++ join (lit ", ") (id2 :: rest)).
    rewrite app_assoc, split_on_app.
    + cbn [map]. rewrite strip_padded by assumption. f_equal.
      apply (IH ltac:(discriminate) [SP]); [repeat constructor|].
      intros [H|[]]. discriminate H.
    + intros H. apply in_app_or in H. tauto.
Qed.

(** X5.  Round trip of the identifier list.  Writing identifiers (texts that
    are not empty, have no white space at either end and hold no comma)
    separated by a comma and a space, as the placeholder of the input box
    shows, and parsing that input gives the same identifiers back, in
    order. *)
Theorem mrn_list_of_joined (ids : list pystr) :
  Forall identifier ids -> mrn_list_of (join (lit ", ") ids) = ids.
Proof.
  intros Hids. destruct ids as [|id rest]; [reflexivity|].
  unfold mrn_list_of.
  change (join (lit ", ") (id :: rest)) with ([] ++ join (lit ", ") (id :: rest)).
  rewrite (strip_join_pieces (id :: rest) Hids ltac:(discriminate) []
             ltac:(constructor) ltac:(intros [])).
  apply forallb_filter_id. apply forallb_forall. intros x Hx.
  rewrite Forall_forall in Hids. destruct (Hids x Hx) as (Hne & _).
  destruct x; [congruence | reflexivity].
Qed.

Lemma identifier_check (s : pystr) :
  negb (Nat.eqb (length s) 0) && trimmed s
  && negb (existsb (N.eqb COMMA) s) = true -> identifier s.
Proof.
  intros H. apply andb_true_iff in H as [H Hc]. apply andb_true_iff in H as [Hn Ht].
  repeat split.
  - intros ->. discriminate Hn.
  - exact Ht.
  - intros Hin. apply negb_true_iff in Hc.
    assert (existsb (N.eqb COMMA) s = true); [|congruence].
    apply existsb_exists. exists COMMA. split; [assumption | apply N.eqb_refl].
Qed.

Lemma mrn_list_of_joined_witness :
  mrn_list_of (lit "203715, 203716, 203717")
  = [lit "203715"; lit "203716"; lit "203717"].
Proof.
  apply (mrn_list_of_joined [lit "203715"; lit "203716"; lit "203717"]).
  repeat constructor; apply identifier_check; reflexivity.
Defined.

(** X6.  An input that holds nothing but commas and white space gives no
    identifier: the loop of either script then makes no pass, no request is
    sent, and the run ends with an empty list of rows. *)
Theorem blank_input_gives_no_identifier (py : interp) (mrn_input : pystr) :
  Forall (fun c => c = COMMA \/ isspace c = true) mrn_input ->
  mrn_list_of mrn_input = []
  /\ (forall world, MriTool.run py world (mrn_list_of mrn_input) = Ok [])
  /\ (forall world token, App.run py world token (mrn_list_of mrn_input) = Ok []).
Proof.
  intros Hblank.
  assert (E : mrn_list_of mrn_input = []).
  { unfold mrn_list_of.
    pose proof (split_on_pieces COMMA mrn_input) as Hpieces.
    induction Hpieces as [|piece pieces Hpiece _ IH]; [reflexivity|].
    simpl. rewrite strip_blank; [exact IH|].
    apply Forall_forall. intros c Hc. destruct (Hpiece c Hc) as [Hin Hneq].
    rewrite Forall_forall in Hblank. destruct (Hblank c Hin); [contradiction | assumption]. }
  rewrite E. repeat split.
Qed.

Lemma blank_input_gives_no_identifier_witness :
  mrn_list_of (lit " , ,,  ") = [].
Proof.
  apply (blank_input_gives_no_identifier Sample.ascii (lit " , ,,  ")).
  repeat constructor; (now left) || (now right).
Defined.

(** ** Reading back a reply in the requested format *)

Lemma after_marker_here (m s : pystr) :
  starts_with m s = true -> App.after_marker m s = Some (skipn (length m) s).
Proof. intros H. destruct s; simpl; now rewrite H. Qed.

Lemma after_marker_at (m x : pystr) : App.after_marker m (m ++ x) = Some x.
Proof.
  rewrite after_marker_here by apply starts_with_app.
  now rewrite skipn_app, skipn_all, Nat.sub_diag.
Qed.

Lemma after_marker_cons (m : pystr) (c : codepoint) (s : pystr) :
  App.after_marker m (c :: s)
  = if starts_with m (c :: s) then Some (skipn (length m) (c :: s))
    else App.after_marker m s.
Proof. reflexivity. Qed.

Lemma after_marker_skip (m a b : pystr) :
  (forall a1 a2, a = a1 ++ a2 -> a2 <> [] -> starts_with m (a2 ++ b) = false) ->
  App.after_marker m (a ++ b) = App.after_marker m b.
Proof.
  induction a as [|c a IH]; intros H; [reflexivity|].
  change ((c :: a) ++ b) with (c :: (a ++ b)). rewrite after_marker_cons.
  change (c :: (a ++ b)) with ((c :: a) ++ b).
  rewrite (H [] (c :: a) eq_refl ltac:(discriminate)).
  apply IH. intros a1 a2 -> Hne. apply (H (c :: a1) a2 eq_refl Hne).
Qed.

Lemma starts_with_before_line (m a x : pystr) :
  ~ In NL m -> starts_with m (a ++ NL :: x) = true -> starts_with m a = true.
Proof.
  revert a. induction m as [|c m IH]; intros a Hnl H; [reflexivity|].
  destruct a as [|d a]; simpl in *.
  - apply andb_true_iff in H as [H _]. apply N.eqb_eq in H. exfalso. apply Hnl. now left.
  - apply andb_true_iff in H as [Hc H]. rewrite Hc. simpl.
    apply IH; [|assumption]. intros Hin. apply Hnl. now right.
Qed.

Lemma occurs_suffix (m a1 a2 : pystr) : occurs m a2 -> occurs m (a1 ++ a2).
Proof.
  intros (pre & post & ->). exists (a1 ++ pre), post. now rewrite <- app_assoc.
Qed.

Lemma after_marker_next_line (m a x : pystr) :
  m <> [] -> ~ In NL m -> ~ occurs m a ->
  App.after_marker m (a ++ NL :: m ++ x) = Some x.
Proof.
  intros Hne Hnl Ha. rewrite after_marker_skip.
  - destruct m as [|c m]; [congruence|].
    assert (Hc : N.eqb c NL = false).
    { apply N.eqb_neq. intros ->. apply Hnl. now left. }
    rewrite after_marker_cons. cbn [starts_with]. rewrite Hc. cbn [andb].
    apply after_marker_at.
  - intros a1 a2 -> Hne2.
    destruct (starts_with m (a2 ++ NL :: m ++ x)) eqn:E; [|reflexivity].
    exfalso. apply Ha. apply occurs_suffix.
    apply str_contains_occurs, str_contains_head.
    exact (starts_with_before_line m a2 (m ++ x) Hnl E).
Qed.

Lemma take_while_line (s tail : pystr) :
  ~ In NL s -> (tail = [] \/ exists t, tail = NL :: t) ->
  take_while (fun c => negb (c =? NL)%N) (s ++ tail) = s.
Proof.
  intros Hnl Htail. induction s as [|c s IH].
  - destruct Htail as [->|(t & ->)]; reflexivity.
  - cbn [app take_while].
    assert (Hc : N.eqb c NL = false).
    { apply N.eqb_neq. intros ->. apply Hnl. now left. }
    rewrite Hc. cbn [negb]. f_equal. apply IH. intros Hin. apply Hnl. now right.
Qed.

Lemma field_of_line (ws value tail : pystr) :
  Forall (fun c => isspace c = true) ws ->
  value <> [] -> starts_clean value = true -> ~ In NL value ->
  (tail = [] \/ exists t, tail = NL :: t) ->
  strip (take_while (fun c => negb (c =? NL)%N)
           (drop_while isspace (ws ++ value ++ tail)))
  = strip value.
Proof.
  intros Hws Hne Hclean Hnl Htail.
  rewrite (drop_while_app_all _ _ _ Hws).
  rewrite drop_while_clean.
  - now rewrite take_while_line.
  - destruct value; [congruence | exact Hclean].
Qed.

(** X7.  Round trip of the reply format.  Let a reply start with the status
    marker, white space, a status text, a line feed, the risk marker, white
    space and a risk text that ends the reply or its line; both texts are on
    one line and start with a character that is not white space, and the
    risk marker does not occur before the end of the status line.  Then the
    status field extracted is the status text and the risk field the risk
    text, each without its trailing white space.  The white space after a
    marker may hold line feeds: the field may stand on a later line. *)
Theorem formatted_reply_is_read_back (status risk ws1 ws2 tail : pystr) :
  Forall (fun c => isspace c = true) ws1 ->
  Forall (fun c => isspace c = true) ws2 ->
  status <> [] -> starts_clean status = true -> ~ In NL status ->
  risk <> [] -> starts_clean risk = true -> ~ In NL risk ->
  ~ occurs App.RISK_MARKER (App.STATUS_MARKER ++ ws1 ++ status) ->
  (tail = [] \/ exists t, tail = NL :: t) ->
  let ai_report :=
    App.STATUS_MARKER ++ ws1 ++ status ++ [NL]
    ++ App.RISK_MARKER ++ ws2 ++ risk ++ tail in
  App.extract_field App.STATUS_MARKER ai_report = strip status
  /\ App.extract_field App.RISK_MARKER ai_report = strip risk.
Proof.
  intros Hws1 Hws2 Hs Hsc Hsn Hr Hrc Hrn Hocc Htail ai_report.
  unfold App.extract_field, App.re_search_field. split.
  - unfold ai_report. rewrite after_marker_at.
    apply field_of_line; auto. right. eexists. reflexivity.
  - assert (E : ai_report
                = (App.STATUS_MARKER ++ ws1 ++ status)
                  ++ NL :: App.RISK_MARKER ++ ws2 ++ risk ++ tail).
    { unfold ai_report. now rewrite <- !app_assoc. }
    rewrite E, after_marker_next_line.
    + now apply field_of_line.
    + discriminate.
    + intros H. vm_compute in H. repeat (destruct H as [H|H]; [discriminate H|]). exact H.
    + exact Hocc.
Qed.

Lemma formatted_reply_is_read_back_witness :
  App.extract_field App.STATUS_MARKER Sample.safe_reply = lit "Conditional"
  /\ App.extract_field App.RISK_MARKER Sample.safe_reply = lit "Mod".
Proof.
  apply (formatted_reply_is_read_back (lit "Conditional") (lit "Mod") [SP] [SP]
           (NL :: lit "**Analysis:** Pacemaker present."));
    try (repeat constructor; fail); try discriminate; try reflexivity.
  - intros H. vm_compute in H. repeat (destruct H as [H|H]; [discriminate H|]). exact H.
  - intros H. vm_compute in H. repeat (destruct H as [H|H]; [discriminate H|]). exact H.
  - intros H. apply str_contains_occurs in H. vm_compute in H. discriminate H.
  - right. eexists. reflexivity.
Defined.

(** ** Size and content of the prompt *)

Lemma truncate_history_len (h : pystr) : len (App.truncate_history h) <= 28015.
Proof.
  unfold App.truncate_history. destruct (28000 <? len h) eqn:E.
  - rewrite len_app. pose proof (slice_to_len 28000 h ltac:(lia)).
    change (len App.TRUNCATED_SUFFIX) with 15. lia.
  - apply Z.ltb_ge in E. lia.
Qed.

Lemma len_nonneg (s : pystr) : 0 <= len s.
Proof. unfold len. lia. Qed.

Lemma assemble_history_len (devs conds procs imgs : list pystr) :
  81 <= len (App.assemble_history devs conds procs imgs).
Proof.
  unfold App.assemble_history.
  repeat match goal with
  | |- context [if ?b then _ else _] => destruct b
  end;
    rewrite ?len_app;
    change (len (lit "Patient's Clinical History (FHIR Data):")) with 39;
    change (len (repeat_char 45%N 40)) with 40;
    change (len [NL]) with 1;
    repeat match goal with
    | |- context [len ?s] =>
        lazymatch s with
        | _ ++ _ => fail
        | _ => pose proof (len_nonneg s); generalize dependent (len s); intros
        end
    end; lia.
Qed.

(** X8.  The prompt is bounded whatever the findings: it is the name of the
    patient rendered as text plus between 423 and 28357 characters.  The
    history field is never empty (its two header lines take 81 characters)
    and never longer than 28015 characters. *)
Theorem prompt_length_bounds (py : interp) (name : json)
  (devs conds procs imgs : list pystr) :
  len (App.py_str py name) + 423
    <= len (App.build_prompt py name devs conds procs imgs)
    <= len (App.py_str py name) + 28357.
Proof.
  unfold App.build_prompt. rewrite !len_app.
  change (len App.PROMPT_HEAD) with 48. change (len App.PROMPT_MIDDLE) with 5.
  change (len App.PROMPT_TAIL) with 289.
  pose proof (truncate_history_len (App.assemble_history devs conds procs imgs)) as Hup.
  pose proof (assemble_history_len devs conds procs imgs) as Hlow.
  assert (81 <= len (App.truncate_history (App.assemble_history devs conds procs imgs))).
  { unfold App.truncate_history.
    destruct (28000 <? len (App.assemble_history devs conds procs imgs)) eqn:E;
      [|exact Hlow].
    apply Z.ltb_lt in E. rewrite len_app.
    rewrite slice_to_len_exact by lia. pose proof (len_nonneg App.TRUNCATED_SUFFIX). lia. }
  lia.
Qed.

Lemma occurs_app_l (m a b : pystr) : occurs m a -> occurs m (a ++ b).
Proof.
  intros (pre & post & ->). exists pre, (post ++ b). now rewrite <- !app_assoc.
Qed.

Lemma occurs_here (m : pystr) : occurs m m.
Proof. exists [], []. now rewrite app_nil_r. Qed.

Lemma join_lines_closed (ys : list pystr) :
  ys <> [] -> join [NL] ys ++ [NL] = flat_map (fun y => y ++ [NL]) ys.
Proof.
  induction ys as [|y ys IH]; [congruence|]. intros _.
  destruct ys as [|y2 ys]; [simpl; now rewrite app_nil_r|].
  change (join [NL] (y :: y2 :: ys)) with (y ++ [NL] ++ join [NL] (y2 :: ys)).
  change (flat_map (fun y => y ++ [NL]) (y :: y2 :: ys))
    with ((y ++ [NL]) ++ flat_map (fun y => y ++ [NL]) (y2 :: ys)).
  rewrite <- IH by discriminate. now rewrite <- !app_assoc.
Qed.

Lemma bullet_occurs (xs : list pystr) (x : pystr) :
  In x xs -> occurs (lit "- " ++ x ++ [NL]) (App.bullet_lines xs ++ [NL]).
Proof.
  intros Hx. unfold App.bullet_lines. rewrite join_lines_closed.
  - induction xs as [|y xs IH]; [destruct Hx|]. cbn [map flat_map].
    destruct Hx as [->|Hx].
    + apply occurs_app_l. rewrite <- app_assoc. apply occurs_here.
    + apply occurs_suffix. now apply IH.
  - destruct xs; [destruct Hx | discriminate].
Qed.

Lemma section_occurs (title : pystr) (xs : list pystr) (h x : pystr) :
  In x xs ->
  occurs (lit "- " ++ x ++ [NL])
    (if App.nonempty xs then h ++ title ++ [NL] ++ App.bullet_lines xs ++ [NL] else h).
Proof.
  intros Hx. destruct xs as [|y xs]; [destruct Hx|]. cbn [App.nonempty length Nat.eqb negb].
  do 3 apply occurs_suffix. now apply bullet_occurs.
Qed.

Lemma section_keeps (title : pystr) (xs : list pystr) (h m : pystr) :
  occurs m h ->
  occurs m (if App.nonempty xs then h ++ title ++ [NL] ++ App.bullet_lines xs ++ [NL] else h).
Proof.
  intros H. destruct (App.nonempty xs); [now apply occurs_app_l | assumption].
Qed.

(** X9.  No finding is lost when the history is assembled: every entry of
    the four lists stands in the history text as a line of its own, a dash
    and a space before it and a line feed after it.  When the history has
    at most 28000 characters, the line stands in the prompt handed to the
    model as well. *)
Theorem every_finding_is_in_the_history (py : interp) (name : json)
  (devs conds procs imgs : list pystr) (x : pystr) :
  In x (devs ++ conds ++ procs ++ imgs) ->
  occurs (lit "- " ++ x ++ [NL]) (App.assemble_history devs conds procs imgs)
  /\ (len (App.assemble_history devs conds procs imgs) <= 28000 ->
      occurs (lit "- " ++ x ++ [NL]) (App.build_prompt py name devs conds procs imgs)).
Proof.
  intros Hx.
  assert (H : occurs (lit "- " ++ x ++ [NL]) (App.assemble_history devs conds procs imgs)).
  { unfold App.assemble_history.
    apply in_app_or in Hx as [Hx|Hx]; [|apply in_app_or in Hx as [Hx|Hx];
      [|apply in_app_or in Hx as [Hx|Hx]]].
    - do 3 apply section_keeps. now apply section_occurs.
    - do 2 apply section_keeps. now apply section_occurs.
    - apply section_keeps. now apply section_occurs.
    - now apply section_occurs. }
  split; [exact H|].
  intros Hlen. unfold App.build_prompt, App.truncate_history.
  apply Z.ltb_ge in Hlen. rewrite Hlen.
  do 3 apply occurs_suffix. now apply occurs_app_l.
Qed.

Lemma every_finding_is_in_the_history_witness :
  occurs (lit "- Atrial fibrillation" ++ [NL])
    (App.build_prompt Sample.ascii Sample.jane_name
       [lit "Pacemaker"] [lit "Atrial fibrillation"]
       [lit "Appendectomy (2019-03-02)"] [lit "CT Head"]).
Proof.
  apply (every_finding_is_in_the_history Sample.ascii Sample.jane_name
           [lit "Pacemaker"] [lit "Atrial fibrillation"]
           [lit "Appendectomy (2019-03-02)"] [lit "CT Head"]
           (lit "Atrial fibrillation")).
  - simpl. right. left. reflexivity.
  - vm_compute. discriminate.
Defined.

(** ** Rows and identifiers *)

Lemma tool_main_loop_rows py world mrn_list :
  forall i results out,
  MriTool.main_loop py world i mrn_list results = Ok out ->
  exists rows,
    out = results ++ rows
    /\ Forall2 (fun im r => MriTool.parse_data_to_row py
                              (MriTool.fetch_patient_data (world (fst im)) (snd im)) = Ok r)
               (enumerate i mrn_list) rows.
Proof.
  induction mrn_list as [|mrn rest IH]; intros i results out H.
  - simpl in H. inversion H; subst. exists []. split; [now rewrite app_nil_r | constructor].
  - simpl in H. apply bind_ok in H as (flat_row & Hrow & H).
    destruct (IH _ _ _ H) as (rows & -> & Hrows).
    exists (flat_row :: rows). split; [now rewrite <- app_assoc|].
    rewrite enumerate_cons. constructor; assumption.
Qed.

(** X10.  The rows of a run of variant 2 that ends normally stand in the
    order of the identifiers, one for each: the row at a position is the
    flattening of what was fetched for the identifier at that position. *)
Theorem tool_rows_follow_identifiers (py : interp)
  (world : nat -> pystr -> json -> headers_t -> http_outcome)
  (mrn_list : list pystr) (rows : list row) :
  MriTool.run py world mrn_list = Ok rows ->
  Forall2 (fun im r => MriTool.parse_data_to_row py
                         (MriTool.fetch_patient_data (world (fst im)) (snd im)) = Ok r)
          (enumerate 0 mrn_list) rows.
Proof.
  intros H. destruct (tool_main_loop_rows py world mrn_list _ _ _ H) as (r & -> & Hr).
  exact Hr.
Qed.

Lemma analyze_patient_found py w token mrn r :
  App.analyze_patient py w token mrn = Ok (Some r) ->
  patient_found py w token mrn = true /\ lookup (lit "MRN") r = Some (JStr mrn).
Proof.
  unfold App.analyze_patient, patient_found. intros H.
  apply bind_ok in H as (b & Hb & H). rewrite Hb.
  destruct b as [[[[[pid name] devs] conds] procs] imgs].
  destruct (truthy pid); simpl in H; inversion H; subst. split; reflexivity.
Qed.

Lemma analyze_patient_skipped py w token mrn :
  App.analyze_patient py w token mrn = Ok None -> patient_found py w token mrn = false.
Proof.
  unfold App.analyze_patient, patient_found. intros H.
  apply bind_ok in H as (b & Hb & H). rewrite Hb.
  destruct b as [[[[[pid name] devs] conds] procs] imgs].
  destruct (truthy pid); simpl in H; [discriminate H | reflexivity].
Qed.

Lemma app_main_loop_rows py world token mrn_list :
  forall i results out,
  App.main_loop py world token i mrn_list results = Ok out ->
  exists rows,
    out = results ++ rows
    /\ map (lookup (lit "MRN")) rows
       = map (fun im => Some (JStr (snd im)))
           (filter (fun im => patient_found py (world (fst im)) token (snd im))
              (enumerate i mrn_list)).
Proof.
  induction mrn_list as [|mrn rest IH]; intros i results out H.
  - simpl in H. inversion H; subst. exists []. split; [now rewrite app_nil_r | reflexivity].
  - simpl in H. apply bind_ok in H as (r & Hr & H).
    rewrite enumerate_cons. cbn [filter fst snd].
    destruct r as [new_row|].
    + destruct (analyze_patient_found _ _ _ _ _ Hr) as [Hfound Hmrn]. rewrite Hfound.
      destruct (IH _ _ _ H) as (rows & -> & Hrows).
      exists (new_row :: rows). split; [now rewrite <- app_assoc|].
      cbn [map snd]. now rewrite Hmrn, Hrows.
    + rewrite (analyze_patient_skipped _ _ _ _ Hr).
      destruct (IH _ _ _ H) as (rows & -> & Hrows). exists rows. split; [reflexivity | exact Hrows].
Qed.

(** X11.  The rows of a run of variant 1 that ends normally stand in the
    order of the identifiers: read down the report, the MRN column lists
    exactly the identifiers that were found, each as it was submitted. *)
Theorem app_rows_follow_identifiers (py : interp) (world : nat -> App.env)
  (token : json) (mrn_list : list pystr) (rows : list row) :
  App.run py world token mrn_list = Ok rows ->
  map (lookup (lit "MRN")) rows
  = map (fun im => Some (JStr (snd im)))
      (filter (fun im => patient_found py (world (fst im)) token (snd im))
         (enumerate 0 mrn_list)).
Proof.
  intros H. destruct (app_main_loop_rows py world token mrn_list _ _ _ H) as (r & -> & Hr).
  exact Hr.
Qed.

(** X12.  A post that fails becomes an error row for the identifier that
    was submitted.  Whether the request raises, the status lies between 400
    and 599, or the body of another status cannot be decoded, fetching and
    flattening give the row with the identifier as MRN, API Error as Status,
    and as Summary the text of the exception: the text raised by the
    request, the HTTP error text built from status, reason and URL, or the
    text of the decoding error. *)
Theorem failed_post_becomes_error_row (py : interp)
  (post : pystr -> json -> headers_t -> http_outcome) (mrn : pystr) :
  let outcome :=
    post MriTool.API_URL (JDict [(lit "mrn", JStr (strip mrn))]) MriTool.HEADERS in
  let error_row := fun summary =>
    Ok [(lit "MRN", JStr mrn); (lit "Status", JStr (lit "API Error"));
        (lit "Summary", JStr summary)] in
  (forall msg, outcome = Failed msg ->
     MriTool.parse_data_to_row py (MriTool.fetch_patient_data post mrn) = error_row msg)
  /\ (forall r, outcome = Responded r ->
        400 <= status_code r < 600 ->
        MriTool.parse_data_to_row py (MriTool.fetch_patient_data post mrn)
        = error_row (MriTool.http_error_msg r))
  /\ (forall r msg, outcome = Responded r ->
        (status_code r < 400 \/ 600 <= status_code r) ->
        json_body r = inl msg ->
        MriTool.parse_data_to_row py (MriTool.fetch_patient_data post mrn) = error_row msg).
Proof.
  intros outcome error_row. unfold MriTool.fetch_patient_data. fold outcome.
  split; [|split].
  - intros msg ->. apply error_response_row.
  - intros r -> [Hlo Hhi].
    apply Z.leb_le in Hlo. apply Z.ltb_lt in Hhi. rewrite Hlo, Hhi.
    apply error_response_row.
  - intros r msg -> Hstatus Hbody.
    assert (E : (400 <=? status_code r) && (status_code r <? 600) = false).
    { apply andb_false_iff. destruct Hstatus; [left; apply Z.leb_gt | right; apply Z.ltb_ge]; lia. }
    rewrite E, Hbody. apply error_response_row.
Qed.

Lemma failed_post_becomes_error_row_witness :
  MriTool.parse_data_to_row Sample.ascii
    (MriTool.fetch_patient_data
       (Sample.endpoint (Sample.status_only 500 (lit "Internal Server Error")))
       Sample.mrn2)
  = Ok [(lit "MRN", JStr Sample.mrn2); (lit "Status", JStr (lit "API Error"));
        (lit "Summary",
         JStr (lit "500 Server Error: Internal Server Error for url: "
               ++ MriTool.API_URL))].
Proof.
  refine (proj1 (proj2 (failed_post_becomes_error_row Sample.ascii
            (Sample.endpoint (Sample.status_only 500 (lit "Internal Server Error")))
            Sample.mrn2)) _ eq_refl _).
  vm_compute. split; [discriminate | reflexivity].
Defined.

Lemma tool_rows_follow_identifiers_witness :
  exists rows,
    MriTool.run Sample.ascii Sample.two_post_world [Sample.mrn1; Sample.mrn2] = Ok rows
    /\ Forall2 (fun im r =>
                  MriTool.parse_data_to_row Sample.ascii
                    (MriTool.fetch_patient_data (Sample.two_post_world (fst im)) (snd im))
                  = Ok r)
               (enumerate 0 [Sample.mrn1; Sample.mrn2]) rows.
Proof.
  destruct (MriTool.run Sample.ascii Sample.two_post_world [Sample.mrn1; Sample.mrn2])
    as [rows|] eqn:E; [|vm_compute in E; discriminate E].
  exists rows. split; [reflexivity|].
  exact (tool_rows_follow_identifiers Sample.ascii Sample.two_post_world
           [Sample.mrn1; Sample.mrn2] rows E).
Defined.

Lemma app_rows_follow_identifiers_witness :
  exists rows,
    App.run Sample.ascii Sample.two_pass_world Sample.token [Sample.mrn1; Sample.mrn2]
    = Ok rows
    /\ map (lookup (lit "MRN")) rows = [Some (JStr Sample.mrn1)].
Proof.
  destruct (App.run Sample.ascii Sample.two_pass_world Sample.token
              [Sample.mrn1; Sample.mrn2]) as [rows|] eqn:E;
    [|vm_compute in E; discriminate E].
  exists rows. split; [reflexivity|].
  rewrite (app_rows_follow_identifiers Sample.ascii Sample.two_pass_world Sample.token
             [Sample.mrn1; Sample.mrn2] rows E).
  vm_compute. reflexivity.
Defined.

(** ** The patient fields of a report row *)

Lemma replace_from_skip (old new pre s : pystr) :
  replace_from old new (length pre) (pre ++ s) = replace_from old new 0 s.
Proof. induction pre as [|c pre IH]; [reflexivity | exact IH]. Qed.

(** An occurrence at the start is replaced, and the scan goes on behind it. *)
Lemma replace_prefix (c : codepoint) (old new s : pystr) :
  replace (c :: old) new ((c :: old) ++ s) = new ++ replace (c :: old) new s.
Proof.
  unfold replace. cbn [app replace_from].
  change (starts_with (c :: old) (c :: old ++ s))
    with (starts_with (c :: old) ((c :: old) ++ s)).
  rewrite starts_with_app. cbn [length Nat.pred]. now rewrite replace_from_skip.
Qed.

(** A text without the first character of [old] holds no occurrence. *)
Lemma replace_absent (c : codepoint) (old new s : pystr) :
  ~ In c s -> replace (c :: old) new s = s.
Proof.
  unfold replace. induction s as [|x s IH]; [reflexivity|]. intros H.
  cbn [replace_from starts_with].
  assert (E : N.eqb c x = false).
  { apply N.eqb_neq. intros ->. apply H. now left. }
  rewrite E. cbn [andb]. rewrite IH; [reflexivity|]. intros Hin. apply H. now right.
Qed.

Lemma patient_field_clean (p : pydict) (field : pystr) (emoji : codepoint) (x : pystr) :
  ~ In emoji x ->
  lookup field p = Some (JStr ([emoji; SP] ++ x)) \/ lookup field p = Some (JStr x) ->
  MriTool.patient_field (JDict p) field [emoji; SP] = Ok (JStr x).
Proof.
  intros Hx H. unfold MriTool.patient_field. cbn [py_get bind].
  destruct H as [-> | ->]; cbn [py_replace bind].
  - now rewrite replace_prefix, (replace_absent emoji [SP] [] x Hx).
  - now rewrite (replace_absent emoji [SP] [] x Hx).
Qed.

Lemma report_row_patient_fields py d patient r :
  lookup (lit "error") d = None ->
  lookup (lit "patient_info") d = Some patient ->
  MriTool.parse_data_to_row py (JDict d) = Ok r ->
  exists mrn name dob gender,
    MriTool.patient_field patient (lit "mrn") MriTool.HOSPITAL = Ok mrn
    /\ MriTool.patient_field patient (lit "name") MriTool.BUST = Ok name
    /\ MriTool.patient_field patient (lit "dob") MriTool.CALENDAR = Ok dob
    /\ MriTool.patient_field patient (lit "gender") MriTool.TRANSGENDER = Ok gender
    /\ lookup (lit "MRN") r = Some mrn /\ lookup (lit "Name") r = Some name
    /\ lookup (lit "DOB") r = Some dob /\ lookup (lit "Gender") r = Some gender.
Proof.
  intros He Hp H. unfold MriTool.parse_data_to_row in H.
  cbn [py_in] in H. rewrite He in H. cbn [bind] in H.
  apply bind_ok in H as (assessment & _ & H).
  apply bind_ok in H as (patient' & Hpat & H).
  cbn [py_get] in Hpat. rewrite Hp in Hpat. inversion Hpat; subst patient'.
  bind_inv H. inversion H; subst.
  eexists _, _, _, _. repeat split; try eassumption; reflexivity.
Qed.

(** X13.  In a report row, each of the four patient columns holds the
    field of patient_info with its emoji prefix removed: when the field is
    a text that starts with the emoji and a space and holds the emoji
    nowhere else, the column is the rest of the text; when the field holds
    no such emoji at all, the column is the field unchanged. *)
Theorem patient_columns_lose_emoji (py : interp) (d p : pydict) (r : row)
  (field column : pystr) (emoji : codepoint) (x : pystr) :
  lookup (lit "error") d = None ->
  lookup (lit "patient_info") d = Some (JDict p) ->
  MriTool.parse_data_to_row py (JDict d) = Ok r ->
  In (field, column, emoji)
     [(lit "mrn", lit "MRN", 127973%N); (lit "name", lit "Name", 128100%N);
      (lit "dob", lit "DOB", 128197%N); (lit "gender", lit "Gender", 9895%N)] ->
  ~ In emoji x ->
  lookup field p = Some (JStr ([emoji; SP] ++ x)) \/ lookup field p = Some (JStr x) ->
  lookup column r = Some (JStr x).
Proof.
  intros He Hp Hrow Hin Hx Hfield.
  destruct (report_row_patient_fields py d (JDict p) r He Hp Hrow)
    as (mrn & name & dob & gender & Hm & Hn & Hd & Hg & Rm & Rn & Rd & Rg).
  pose proof (patient_field_clean p field emoji x Hx Hfield) as Hclean.
  destruct Hin as [E|[E|[E|[E|[]]]]]; inversion E; subst field column emoji.
  - rewrite Rm. f_equal.
    assert (E2 : Ok mrn = Ok (JStr x)) by exact (eq_trans (eq_sym Hm) Hclean).
    now inversion E2.
  - rewrite Rn. f_equal.
    assert (E2 : Ok name = Ok (JStr x)) by exact (eq_trans (eq_sym Hn) Hclean).
    now inversion E2.
  - rewrite Rd. f_equal.
    assert (E2 : Ok dob = Ok (JStr x)) by exact (eq_trans (eq_sym Hd) Hclean).
    now inversion E2.
  - rewrite Rg. f_equal.
    assert (E2 : Ok gender = Ok (JStr x)) by exact (eq_trans (eq_sym Hg) Hclean).
    now inversion E2.
Qed.

Lemma patient_columns_lose_emoji_witness :
  exists r,
    MriTool.parse_data_to_row Sample.ascii Sample.triage_answer = Ok r
    /\ lookup (lit "MRN") r = Some (JStr (lit "203715"))
    /\ lookup (lit "Name") r = Some (JStr (lit "Jane Doe")).
Proof.
  destruct (MriTool.parse_data_to_row Sample.ascii Sample.triage_answer) as [r|] eqn:E;
    [|vm_compute in E; discriminate E].
  exists r. split; [reflexivity|].
  set (d := match Sample.triage_answer with JDict d => d | _ => [] end).
  set (p := match lookup (lit "patient_info") d with Some (JDict p) => p | _ => [] end).
  split.
  - apply (patient_columns_lose_emoji Sample.ascii d p r (lit "mrn") (lit "MRN")
             127973%N (lit "203715"));
      try (vm_compute; reflexivity); try exact E.
    + left. reflexivity.
    + intros H. vm_compute in H. repeat (destruct H as [H|H]; [discriminate H|]). exact H.
    + left. vm_compute. reflexivity.
  - apply (patient_columns_lose_emoji Sample.ascii d p r (lit "name") (lit "Name")
             128100%N (lit "Jane Doe"));
      try (vm_compute; reflexivity); try exact E.
    + right. left. reflexivity.
    + intros H. vm_compute in H. repeat (destruct H as [H|H]; [discriminate H|]). exact H.
    + left. vm_compute. reflexivity.
Defined.

(** ** The device lines of a report row *)

Lemma finding_step_lines py item acc acc' :
  MriTool.finding_step py item acc = Ok acc' ->
  exists lines,
    acc' = acc ++ lines
    /\ length lines = (if flagged item then 1 else 0)%nat
    /\ Forall (fun l => starts_with MriTool.BULLET l = true) lines.
Proof.
  unfold MriTool.finding_step, flagged. intros H.
  apply bind_ok in H as (has_concern & Hc & H). rewrite Hc.
  destruct (truthy has_concern).
  - bind_inv H. inversion H; subst. eexists [_]. repeat split.
    repeat constructor.
  - inversion H; subst. exists []. rewrite app_nil_r. repeat split. constructor.
Qed.

Lemma findings_loop_lines py items :
  forall acc out,
  for_each (MriTool.finding_step py) items acc = Ok out ->
  exists lines,
    out = acc ++ lines
    /\ length lines = length (filter flagged items)
    /\ Forall (fun l => starts_with MriTool.BULLET l = true) lines.
Proof.
  induction items as [|item items IH]; intros acc out H.
  - simpl in H. inversion H; subst. exists []. rewrite app_nil_r. repeat split. constructor.
  - simpl in H. apply bind_ok in H as (acc1 & Hstep & H).
    destruct (finding_step_lines _ _ _ _ Hstep) as (l1 & -> & Hlen1 & Hb1).
    destruct (IH _ _ H) as (l2 & -> & Hlen2 & Hb2).
    exists (l1 ++ l2). rewrite <- app_assoc. repeat split.
    + rewrite length_app, Hlen1, Hlen2. cbn [filter].
      destruct (flagged item); reflexivity.
    + apply Forall_app. split; assumption.
Qed.

(** X14.  The Devices/Implants Found cell of a report row is built from
    the findings that carry a truthy has_concern and from no other: it is
    the join, by line feeds, of exactly one line for each such finding, and
    every one of these lines starts with a bullet and a space. *)
Theorem device_cell_has_one_line_per_flagged_finding (py : interp)
  (d details : pydict) (items : list json) (r : row) :
  lookup (lit "error") d = None ->
  lookup (lit "analysis_details") d = Some (JDict details) ->
  lookup (lit "individual_findings") details = Some (JList items) ->
  MriTool.parse_data_to_row py (JDict d) = Ok r ->
  exists lines,
    lookup (lit "Devices/Implants Found") r = Some (JStr (join [NL] lines))
    /\ length lines = length (filter flagged items)
    /\ Forall (fun l => starts_with MriTool.BULLET l = true) lines.
Proof.
  intros He Hd Hf H. unfold MriTool.parse_data_to_row in H.
  cbn [py_in] in H. rewrite He in H. cbn [bind] in H.
  apply bind_ok in H as (assessment & _ & H).
  apply bind_ok in H as (patient & _ & H).
  apply bind_ok in H as (details' & Hdet & H).
  cbn [py_get] in Hdet. rewrite Hd in Hdet. inversion Hdet; subst details'.
  apply bind_ok in H as (findings_list & Hfl & H).
  cbn [py_get] in Hfl. rewrite Hf in Hfl. inversion Hfl; subst findings_list.
  apply bind_ok in H as (items' & Hit & H).
  cbn [py_iter] in Hit. inversion Hit; subst items'.
  apply bind_ok in H as (devices_found & Hloop & H).
  destruct (findings_loop_lines py items [] devices_found Hloop) as (lines & -> & Hlen & Hb).
  exists lines. split; [|split; assumption].
  bind_inv H. inversion H; subst. reflexivity.
Qed.

Lemma device_cell_has_one_line_per_flagged_finding_witness :
  exists r lines,
    MriTool.parse_data_to_row Sample.ascii Sample.triage_answer = Ok r
    /\ lookup (lit "Devices/Implants Found") r = Some (JStr (join [NL] lines))
    /\ length lines = 1%nat.
Proof.
  destruct (MriTool.parse_data_to_row Sample.ascii Sample.triage_answer) as [r|] eqn:E;
    [|vm_compute in E; discriminate E].
  set (d := match Sample.triage_answer with JDict d => d | _ => [] end).
  set (details := match lookup (lit "analysis_details") d with
                  | Some (JDict x) => x | _ => [] end).
  set (items := match lookup (lit "individual_findings") details with
                | Some (JList x) => x | _ => [] end).
  destruct (device_cell_has_one_line_per_flagged_finding Sample.ascii d details items r)
    as (lines & Hcell & Hlen & _);
    try (vm_compute; reflexivity); try exact E.
  exists r, lines. split; [reflexivity|]. split; [exact Hcell | exact Hlen].
Defined.

(** ** The finding lists on well-typed responses *)

Lemma for_each_collect (step : json -> list pystr -> result (list pystr))
  (f : json -> list pystr) (items : list json) :
  (forall e, In e items -> forall acc, step e acc = Ok (acc ++ f e)) ->
  forall acc, for_each step items acc = Ok (acc ++ flat_map f items).
Proof.
  induction items as [|e items IH]; intros Hstep acc; simpl.
  - now rewrite app_nil_r.
  - rewrite (Hstep e (or_introl eq_refl)). simpl bind.
    rewrite IH; [now rewrite <- app_assoc|].
    intros e' He'. apply Hstep. now right.
Qed.

Lemma flat_map_single {A B} (g : A -> B) (l : list A) :
  flat_map (fun x => [g x]) l = map g l.
Proof. induction l as [|x l IH]; simpl; [reflexivity | now rewrite IH]. Qed.

Lemma flat_map_filter {A B} (p : A -> bool) (g : A -> B) (l : list A) :
  flat_map (fun x => if p x then [g x] else []) l = map g (filter p l).
Proof.
  induction l as [|x l IH]; simpl; [reflexivity|].
  destruct (p x); simpl; now rewrite IH.
Qed.

Lemma entries_loop_collect (step : json -> list pystr -> result (list pystr))
  (f : json -> list pystr) (resp : json) (entries : list json) :
  py_get resp (lit "entry") (JList []) = Ok (JList entries) ->
  (forall e, In e entries -> forall acc, step e acc = Ok (acc ++ f e)) ->
  App.entries_loop step resp = Ok (flat_map f entries).
Proof.
  intros Hentry Hstep. unfold App.entries_loop. rewrite Hentry. simpl.
  exact (for_each_collect step f entries Hstep []).
Qed.

Lemma device_step_label py e acc :
  device_entry_shape e = true ->
  App.device_step py e acc = Ok (acc ++ [device_label py e]).
Proof.
  unfold device_entry_shape, device_label, resource_of, App.device_step,
    optional_objects, first_field.
  destruct (py_item e (lit "resource")) as [[| | | | | |resource]|]; try discriminate.
  cbn [bind py_get].
  destruct (lookup (lit "deviceName") resource) as [[| | | | |[|[| | | | | |o] l]|]|];
    try discriminate; intros _; reflexivity.
Qed.

(** X15.  On a Device search response whose entries have the shape FHIR
    gives them, the device list holds exactly one text for every entry, in
    order: the name of the first device name of the resource, cleaned, or
    Unknown Device when the resource has no device name or an empty one. *)
Theorem one_device_text_per_entry (py : interp) (resp : json) (entries : list json) :
  py_get resp (lit "entry") (JList []) = Ok (JList entries) ->
  forallb device_entry_shape entries = true ->
  App.entries_loop (App.device_step py) resp = Ok (map (device_label py) entries).
Proof.
  intros Hentry Hshape. rewrite <- flat_map_single.
  apply entries_loop_collect; [exact Hentry|].
  intros e He acc. apply device_step_label.
  rewrite forallb_forall in Hshape. now apply Hshape.
Qed.

Lemma one_device_text_per_entry_witness :
  App.entries_loop (App.device_step Sample.ascii) (Sample.bundle_of Sample.two_devices)
  = Ok [lit "Pacemaker"; lit "Unknown Device"].
Proof.
  apply (one_device_text_per_entry Sample.ascii
           (Sample.bundle_of Sample.two_devices) Sample.two_devices);
    vm_compute; reflexivity.
Defined.

Lemma code_text_nested e resource :
  resource_of e = Some resource ->
  optional_object (lit "code") resource = true ->
  App.code_text e = Ok (nested_field (lit "code") (lit "text") resource).
Proof.
  unfold resource_of, optional_object, App.code_text, nested_field.
  destruct (py_item e (lit "resource")) as [[| | | | | |r]|]; try discriminate.
  intros E. inversion E; subst r. cbn [bind py_get].
  destruct (lookup (lit "code") resource) as [[| | | | | |o]|]; try discriminate;
    intros _; reflexivity.
Qed.

Lemma procedure_step_label py e acc :
  procedure_entry_shape e = true ->
  App.procedure_step py e acc = Ok (acc ++ [procedure_label py e]).
Proof.
  unfold procedure_entry_shape, procedure_label, App.procedure_step.
  destruct (resource_of e) as [resource|] eqn:Er; [|discriminate].
  intros H. apply andb_true_iff in H as [Hcode Hperiod].
  rewrite (code_text_nested e resource Er Hcode). cbn [bind].
  unfold resource_of in Er.
  destruct (py_item e (lit "resource")) as [[| | | | | |r]|]; try discriminate.
  inversion Er; subst r. cbn [bind py_get].
  unfold optional_object in Hperiod.
  destruct (lookup (lit "performedPeriod") resource) as [[| | | | | |o]|] eqn:Ep;
    try discriminate; unfold nested_field; rewrite Ep; reflexivity.
Qed.

(** X16.  On a Procedure search response whose entries have the shape FHIR
    gives them, the procedure list holds exactly one text for every entry,
    in order: the text of the code, cleaned, or Unknown Procedure, followed
    by the start of the performed period in brackets.  The brackets are
    written also when the resource has no performed period: the text then
    ends with a space and an empty pair of brackets. *)
Theorem one_procedure_text_per_entry (py : interp) (resp : json) (entries : list json) :
  py_get resp (lit "entry") (JList []) = Ok (JList entries) ->
  forallb procedure_entry_shape entries = true ->
  App.entries_loop (App.procedure_step py) resp = Ok (map (procedure_label py) entries)
  /\ (forall e resource,
        In e entries -> resource_of e = Some resource ->
        lookup (lit "performedPeriod") resource = None ->
        procedure_label py e
        = App.clean py (py_or (nested_field (lit "code") (lit "text") resource)
                              (JStr (lit "Unknown Procedure")))
          ++ lit " ()").
Proof.
  intros Hentry Hshape. split.
  - rewrite <- flat_map_single.
    apply entries_loop_collect; [exact Hentry|].
    intros e He acc. apply procedure_step_label.
    rewrite forallb_forall in Hshape. now apply Hshape.
  - intros e resource _ Hr Hnone. unfold procedure_label. rewrite Hr.
    unfold nested_field. rewrite Hnone. reflexivity.
Qed.

Lemma one_procedure_text_per_entry_witness :
  App.entries_loop (App.procedure_step Sample.ascii)
    (Sample.bundle_of Sample.two_procedures)
  = Ok [lit "Appendectomy (2019-03-02)"; lit "Hip replacement ()"].
Proof.
  apply (one_procedure_text_per_entry Sample.ascii
           (Sample.bundle_of Sample.two_procedures) Sample.two_procedures);
    vm_compute; reflexivity.
Defined.

Lemma imaging_step_label py e acc :
  report_entry_shape e = true ->
  App.imaging_step py e acc
  = Ok (acc ++ (if is_imaging py e then [study_label py e] else [])).
Proof.
  unfold report_entry_shape, is_imaging, study_label, App.imaging_step.
  destruct (resource_of e) as [resource|] eqn:Er; [|discriminate].
  intros H. apply andb_true_iff in H as [Hcat Hcode].
  rewrite (code_text_nested e resource Er Hcode).
  unfold resource_of in Er.
  destruct (py_item e (lit "resource")) as [[| | | | | |r]|]; try discriminate.
  inversion Er; subst r. cbn [bind py_get].
  unfold optional_objects in Hcat. unfold first_field.
  destruct (lookup (lit "category") resource) as [[| | | | |[|[| | | | | |o] l]|]|];
    try discriminate; cbn [py_first bind py_get lookup];
    match goal with
    | |- (if ?b then _ else _) = _ => destruct b
    end; cbn [bind]; rewrite ?app_nil_r; reflexivity.
Qed.

Lemma devices_closed_form py resp entries :
  py_get resp (lit "entry") (JList []) = Ok (JList entries) ->
  forallb device_entry_shape entries = true ->
  App.entries_loop (App.device_step py) resp = Ok (map (device_label py) entries).
Proof.
  intros Hentry Hshape. rewrite <- flat_map_single.
  apply entries_loop_collect; [exact Hentry|].
  intros e He acc. apply device_step_label.
  rewrite forallb_forall in Hshape. now apply Hshape.
Qed.

Lemma conditions_closed_form py resp entries :
  py_get resp (lit "entry") (JList []) = Ok (JList entries) ->
  forallb condition_entry_shape entries = true ->
  App.entries_loop (App.condition_step py) resp
  = Ok (map (condition_name py) (filter is_active entries)).
Proof.
  intros Hentry Hshape. unfold App.entries_loop. rewrite Hentry. simpl.
  apply (conditions_loop_filter py entries []).
  revert Hshape. apply forallb_impl. apply condition_entry_readable.
Qed.

Lemma procedures_closed_form py resp entries :
  py_get resp (lit "entry") (JList []) = Ok (JList entries) ->
  forallb procedure_entry_shape entries = true ->
  App.entries_loop (App.procedure_step py) resp = Ok (map (procedure_label py) entries).
Proof.
  intros Hentry Hshape. rewrite <- flat_map_single.
  apply entries_loop_collect; [exact Hentry|].
  intros e He acc. apply procedure_step_label.
  rewrite forallb_forall in Hshape. now apply Hshape.
Qed.

Lemma imaging_closed_form py resp entries :
  py_get resp (lit "entry") (JList []) = Ok (JList entries) ->
  forallb report_entry_shape entries = true ->
  App.entries_loop (App.imaging_step py) resp
  = Ok (map (study_label py) (filter (is_imaging py) entries)).
Proof.
  intros Hentry Hshape. rewrite <- flat_map_filter.
  apply entries_loop_collect; [exact Hentry|].
  intros e He acc. apply imaging_step_label.
  rewrite forallb_forall in Hshape. now apply Hshape.
Qed.

(** X17.  On a DiagnosticReport search response whose entries have the
    shape FHIR gives them, the imaging list holds, in order, one text for
    every entry whose first category text, rendered as a string and put in
    lower case, contains radiology or imaging, and nothing for any other
    entry.  The text is the text of the code, cleaned, or Study. *)
Theorem imaging_studies_only (py : interp) (resp : json) (entries : list json) :
  py_get resp (lit "entry") (JList []) = Ok (JList entries) ->
  forallb report_entry_shape entries = true ->
  App.entries_loop (App.imaging_step py) resp
  = Ok (map (study_label py) (filter (is_imaging py) entries)).
Proof. apply imaging_closed_form. Qed.

Lemma imaging_studies_only_witness :
  App.entries_loop (App.imaging_step Sample.ascii) (Sample.bundle_of Sample.three_reports)
  = Ok [lit "CT Head"].
Proof.
  apply (imaging_studies_only Sample.ascii
           (Sample.bundle_of Sample.three_reports) Sample.three_reports);
    vm_compute; reflexivity.
Defined.

(** X18.  On well-typed responses [get_patient_data] raises nothing and
    its bundle is known in full.  When the Patient search gives an
    identifier and a name and the entries of the four other searches have
    the shapes FHIR gives them, the bundle holds that identifier and name,
    one device text for every device entry, the names of the active
    conditions, one procedure text for every procedure entry, and the
    studies of the imaging reports, each list in the order of its entries. *)
Theorem bundle_on_typed_responses (py : interp)
  (get : pystr -> headers_t -> http_outcome) (mrn : pystr) (token pid name : json)
  (devs conds procs rpts : list json) :
  let headers := App.make_headers py token in
  App.patient_lookup get mrn headers = Ok (Some (pid, name)) ->
  py_get (App.safe_get_json get (App.device_url py pid) headers) (lit "entry") (JList [])
    = Ok (JList devs) ->
  py_get (App.safe_get_json get (App.condition_url py pid) headers) (lit "entry") (JList [])
    = Ok (JList conds) ->
  py_get (App.safe_get_json get (App.procedure_url py pid) headers) (lit "entry") (JList [])
    = Ok (JList procs) ->
  py_get (App.safe_get_json get (App.report_url py pid) headers) (lit "entry") (JList [])
    = Ok (JList rpts) ->
  forallb device_entry_shape devs = true ->
  forallb condition_entry_shape conds = true ->
  forallb procedure_entry_shape procs = true ->
  forallb report_entry_shape rpts = true ->
  App.get_patient_data py get mrn token
  = Ok (pid, name,
        map (device_label py) devs,
        map (condition_name py) (filter is_active conds),
        map (procedure_label py) procs,
        map (study_label py) (filter (is_imaging py) rpts)).
Proof.
  intros headers Hp Hd Hc Hpr Hr Sd Sc Sp Sr.
  unfold App.get_patient_data. fold headers. rewrite Hp. cbn [bind].
  unfold App.devices_of, App.conditions_of, App.procedures_of, App.imaging_of.
  rewrite (devices_closed_form py _ devs Hd Sd). cbn [bind].
  rewrite (conditions_closed_form py _ conds Hc Sc). cbn [bind].
  rewrite (procedures_closed_form py _ procs Hpr Sp). cbn [bind].
  rewrite (imaging_closed_form py _ rpts Hr Sr). reflexivity.
Qed.

Lemma bundle_on_typed_responses_witness :
  App.get_patient_data Sample.ascii Sample.clinic Sample.mrn1 Sample.token
  = Ok (Sample.jane_id, Sample.jane_name,
        [lit "Pacemaker"], [lit "Atrial fibrillation"],
        [lit "Appendectomy (2019-03-02)"], [lit "CT Head"]).
Proof.
  apply (bundle_on_typed_responses Sample.ascii Sample.clinic Sample.mrn1 Sample.token
           Sample.jane_id Sample.jane_name
           [Sample.pacemaker] Sample.clinic_conditions Sample.clinic_procedures
           Sample.clinic_reports);
    vm_compute; reflexivity.
Defined.
